(** * Smart Oil Gauge: the session client, the polling coordinator and the
      tank entities, embedded in Rocq.

    The Python sources are embedded shallowly:
    - [api.py]            -> module [Api]
    - [__init__.py]       -> module [Coordinator]
    - [entity.py]         -> module [Entity]
    - [sensor.py]         -> module [Sensor]
    - [binary_sensor.py]  -> module [BinarySensor]

    Python values are an inductive type, exceptions are data, and a call that
    may raise returns a [result].  Text is a Rocq [string]; the conversions
    of the Python runtime ([float], [str], [str.lower], [re]) are written out
    for ASCII text.  Floats are IEEE binary64 numbers, computed by the
    standard library's [SpecFloat]. *)

From Stdlib Require Import ZArith List String Ascii Bool Lia.
From Stdlib Require Import Floats.SpecFloat.
From Stdlib Require DecimalString.

Import ListNotations.
Open Scope string_scope.
Open Scope Z_scope.

Set Warnings "-register-all".

(** ** The Python runtime *)

Module Py.

(** JSON-shaped values; a mapping keeps its entries in order and the first
    entry of a key is the one looked up. *)
Inductive pyval : Type :=
| PNone
| PBool (b : bool)
| PInt (z : Z)
| PFloat (f : spec_float)
| PStr (s : string)
| PList (l : list pyval)
| PDict (d : list (string * pyval)).

Definition dict := list (string * pyval).

(** Tags for the messages of the integration's own exceptions; the
    interpolated values are kept, the English text is not. *)
Inductive ApiErrorMsg : Type :=
| TimeoutFetchingLoginPage
| ErrorFetchingLoginPage
| LoginFailedHTTP (status : Z)
| TimeoutPostingLoginForm
| HTTPErrorDuringLogin
| TankListFailedHTTP (status : Z)
| UnexpectedContentType (ctype : string)
| FailedToDecodeJSON
| TimeoutTalking
| HTTPErrorTalking
| APIResultError (result : pyval).

Inductive AuthErrorMsg : Type :=
| LoginUnauthorizedHTTP (status : Z)
| LoginFormStillPresent
| LoginPageReturned
| TankListUnauthorizedHTTP (status : Z)
| SessionExpired
| APIUnauthorizedStatus (status : pyval).

Inductive UpdateFailedMsg : Type :=
| ReLoginFailed
| ApiFailure
| UnexpectedError.

(** Every exception of the model derives from Python's [Exception]. *)
Inductive exn : Type :=
| ValueError
| TypeError
| OverflowError
| ZeroDivisionError
| AttributeError
| TimeoutError            (* asyncio.TimeoutError *)
| ClientError             (* aiohttp.ClientError *)
| OtherException          (* any exception not named here *)
| AuthError (m : AuthErrorMsg)
| ApiError (m : ApiErrorMsg)
| ConfigEntryAuthFailed
| UpdateFailed (m : UpdateFailedMsg).

Inductive result (A : Type) : Type :=
| Ok (a : A)
| Err (e : exn).
Arguments Ok {A} a.
Arguments Err {A} e.

Definition rbind {A B} (r : result A) (k : A -> result B) : result B :=
  match r with
  | Ok a => k a
  | Err e => Err e
  end.

(** *** Text *)

Definition dquote : string := String "034"%char EmptyString.

Fixpoint prefixb (p s : list ascii) : bool :=
  match p, s with
  | [], _ => true
  | _ :: _, [] => false
  | a :: p', b :: s' => Ascii.eqb a b && prefixb p' s'
  end.

Fixpoint infixb (p s : list ascii) : bool :=
  prefixb p s ||
  match s with
  | [] => false
  | _ :: s' => infixb p s'
  end.

(** [needle in hay] on Python strings. *)
Definition contains (needle hay : string) : bool :=
  infixb (list_ascii_of_string needle) (list_ascii_of_string hay).

Definition is_upper (c : ascii) : bool :=
  let n := nat_of_ascii c in (65 <=? n)%nat && (n <=? 90)%nat.

Definition lower_ascii (c : ascii) : ascii :=
  if is_upper c then ascii_of_nat (nat_of_ascii c + 32) else c.

(** [s.lower()] *)
Definition lower (s : string) : string :=
  string_of_list_ascii (map lower_ascii (list_ascii_of_string s)).

Definition is_digit (c : ascii) : bool :=
  let n := nat_of_ascii c in (48 <=? n)%nat && (n <=? 57)%nat.

Definition digit_val (c : ascii) : Z := Z.of_nat (nat_of_ascii c) - 48.

(** *** Floats: IEEE binary64 *)

Definition prec : Z := 53.
Definition emax : Z := 1024.

Definition float := spec_float.

Definition float_of_Z (z : Z) : float := binary_normalize prec emax z 0 false.

Definition fzero : float := S754_zero false.

Definition is_zero (f : float) : bool :=
  match f with
  | S754_zero _ => true
  | _ => false
  end.

(** [x * y] and [x <= y], [x == y] on floats. *)
Definition fmul (x y : float) : float := SFmul prec emax x y.
Definition fleb (x y : float) : bool := SFleb x y.
Definition feqb (x y : float) : bool := SFeqb x y.

(** [x / y]: Python raises where IEEE returns an infinity or a NaN. *)
Definition fdiv (x y : float) : result float :=
  if is_zero y then Err ZeroDivisionError else Ok (SFdiv prec emax x y).

(** The binary64 number nearest to [(-1)^neg * m * 10^e] (ties to even), as
    the runtime's [strtod] computes it. *)
Definition decimal_to_float (neg : bool) (m : Z) (e : Z) : float :=
  match m with
  | Zpos p =>
      if 0 <=? e
      then binary_normalize prec emax ((if neg then - m else m) * 10 ^ e) 0 false
      else SFdiv prec emax (S754_finite neg p 0)
                           (S754_finite false (Z.to_pos (10 ^ (- e))) 0)
  | _ => S754_zero neg
  end.

(** [round(x, ndigits)] for [ndigits >= 0]: the exact value of [x] is rounded
    to [ndigits] decimal places, ties to even, and the decimal is converted
    back; infinities and NaN round to themselves. *)
Definition round_half_even (n d : Z) : Z :=
  let q := n / d in
  let r := n mod d in
  match 2 * r ?= d with
  | Lt => q
  | Gt => q + 1
  | Eq => if Z.even q then q else q + 1
  end.

Definition NDIGITS_MAX : Z := 323.

Definition round (x : float) (ndigits : Z) : float :=
  match x with
  | S754_finite s m e =>
      if NDIGITS_MAX <? ndigits then x
      else
        let n := Zpos m * 10 ^ ndigits in
        let q := if 0 <=? e then n * 2 ^ e else round_half_even n (2 ^ (- e)) in
        decimal_to_float s q (- ndigits)
  | _ => x
  end.

(** *** [float(x)] *)

(** The six characters [Py_ISSPACE] accepts. *)
Definition is_space (c : ascii) : bool :=
  let n := nat_of_ascii c in
  ((9 <=? n)%nat && (n <=? 13)%nat) || (n =? 32)%nat.

Fixpoint lstrip (l : list ascii) : list ascii :=
  match l with
  | c :: l' => if is_space c then lstrip l' else l
  | [] => []
  end.

Definition strip (l : list ascii) : list ascii :=
  List.rev (lstrip (List.rev (lstrip l))).

Definition is_underscore (c : ascii) : bool := Ascii.eqb c "_"%char.

(** The underscore rule of numeric literals: an underscore stands between
    two digits.  [prev] is the previous character, if any. *)
Fixpoint drop_underscores (prev : option ascii) (l : list ascii)
  : option (list ascii) :=
  match l with
  | [] =>
      match prev with
      | Some p => if is_underscore p then None else Some []
      | None => Some []
      end
  | c :: l' =>
      if is_underscore c then
        match prev with
        | Some p => if is_digit p then drop_underscores (Some c) l' else None
        | None => None
        end
      else
        match prev with
        | Some p =>
            if is_underscore p && negb (is_digit c) then None
            else option_map (cons c) (drop_underscores (Some c) l')
        | None => option_map (cons c) (drop_underscores (Some c) l')
        end
  end.

Definition without_underscores (l : list ascii) : option (list ascii) :=
  if existsb is_underscore l then drop_underscores None l else Some l.

Fixpoint span_digits (l : list ascii) : list ascii * list ascii :=
  match l with
  | c :: l' =>
      if is_digit c
      then let '(ds, rest) := span_digits l' in (c :: ds, rest)
      else ([], l)
  | [] => ([], [])
  end.

Definition digits_val (ds : list ascii) : Z :=
  fold_left (fun acc c => 10 * acc + digit_val c) ds 0.

Definition take_sign (l : list ascii) : bool * list ascii :=
  match l with
  | c :: l' =>
      if Ascii.eqb c "-"%char then (true, l')
      else if Ascii.eqb c "+"%char then (false, l')
      else (false, l)
  | [] => (false, [])
  end.

(** Case-insensitive match of a lower-case literal at the head of [l]. *)
Fixpoint match_ci (lit : list ascii) (l : list ascii) : option (list ascii) :=
  match lit, l with
  | [], _ => Some l
  | _ :: _, [] => None
  | a :: lit', b :: l' =>
      if Ascii.eqb a (lower_ascii b) then match_ci lit' l' else None
  end.

(** [inf], [infinity] and [nan], any case. *)
Definition parse_inf_or_nan (neg : bool) (l : list ascii)
  : option (float * list ascii) :=
  match match_ci (list_ascii_of_string "inf") l with
  | Some rest =>
      match match_ci (list_ascii_of_string "inity") rest with
      | Some rest' => Some (S754_infinity neg, rest')
      | None => Some (S754_infinity neg, rest)
      end
  | None =>
      match match_ci (list_ascii_of_string "nan") l with
      | Some rest => Some (S754_nan, rest)
      | None => None
      end
  end.

(** An exponent part [e[+-]digits]; without digits the exponent is not
    consumed. *)
Definition parse_exponent (l : list ascii) : Z * list ascii :=
  match l with
  | c :: l' =>
      if Ascii.eqb (lower_ascii c) "e"%char then
        let '(eneg, l'') := take_sign l' in
        let '(ds, rest) := span_digits l'' in
        match ds with
        | [] => (0, l)
        | _ => ((if eneg then - digits_val ds else digits_val ds), rest)
        end
      else (0, l)
  | [] => (0, [])
  end.

Definition parse_decimal (neg : bool) (l : list ascii)
  : option (float * list ascii) :=
  let '(ip, r1) := span_digits l in
  let '(fp, r2) :=
    match r1 with
    | c :: r1' => if Ascii.eqb c "."%char then span_digits r1' else ([], r1)
    | [] => ([], [])
    end in
  match (ip ++ fp)%list with
  | [] => None
  | ds =>
      let '(ex, rest) := parse_exponent r2 in
      Some (decimal_to_float neg (digits_val ds) (ex - Z.of_nat (List.length fp)), rest)
  end.

(** [float(s)] for a string: [None] stands for [ValueError]. *)
Definition float_of_string (s : string) : option float :=
  match strip (list_ascii_of_string s) with
  | [] => None
  | l =>
      match without_underscores l with
      | None => None
      | Some l0 =>
          let '(neg, l1) := take_sign l0 in
          let parsed :=
            match parse_decimal neg l1 with
            | Some r => Some r
            | None => parse_inf_or_nan neg l1
            end in
          match parsed with
          | Some (f, []) => Some f
          | _ => None
          end
      end
  end.

(** [float(x)] *)
Definition py_float (x : pyval) : result float :=
  match x with
  | PFloat f => Ok f
  | PInt z =>
      match float_of_Z z with
      | S754_infinity _ => Err OverflowError
      | f => Ok f
      end
  | PBool b => Ok (float_of_Z (Z.b2z b))
  | PStr s =>
      match float_of_string s with
      | Some f => Ok f
      | None => Err ValueError
      end
  | PNone | PList _ | PDict _ => Err TypeError
  end.

(** [x == z] for an integer constant [z] that binary64 represents exactly:
    numbers compare by value, every other type is unequal to a number. *)
Definition py_eq_int (x : pyval) (z : Z) : bool :=
  match x with
  | PInt n => n =? z
  | PBool b => Z.b2z b =? z
  | PFloat f => feqb f (float_of_Z z)
  | _ => false
  end.

(** Truth value of an object, as [not x] and [x or y] test it. *)
Definition py_truthy (x : pyval) : bool :=
  match x with
  | PNone => false
  | PBool b => b
  | PInt z => negb (z =? 0)
  | PFloat f => negb (is_zero f)
  | PStr s => negb (String.eqb s "")
  | PList l => match l with [] => false | _ => true end
  | PDict d => match d with [] => false | _ => true end
  end.

Definition is_none (x : pyval) : bool :=
  match x with
  | PNone => true
  | _ => false
  end.

(** *** Mappings *)

Fixpoint dict_lookup (d : dict) (k : string) : option pyval :=
  match d with
  | [] => None
  | (k', v) :: d' => if String.eqb k' k then Some v else dict_lookup d' k
  end.

(** [d.get(k)] on a dict. *)
Definition dict_get (d : dict) (k : string) : pyval :=
  match dict_lookup d k with
  | Some v => v
  | None => PNone
  end.

(** [x.get(k)] on any object: only mappings have the method. *)
Definition py_get (x : pyval) (k : string) : result pyval :=
  match x with
  | PDict d => Ok (dict_get d k)
  | _ => Err AttributeError
  end.

Definition isinstance_dict (x : pyval) : bool :=
  match x with
  | PDict _ => true
  | _ => false
  end.

(** *** [str(x)] *)

Definition string_of_Z (z : Z) : string :=
  DecimalString.NilZero.string_of_int (Z.to_int z).

Section Str.

(** The text of floats and containers is the runtime's [repr]; the code
    under study only compares it with other text. *)
Variable py_repr : pyval -> string.

Definition py_str (x : pyval) : string :=
  match x with
  | PNone => "None"
  | PBool true => "True"
  | PBool false => "False"
  | PInt z => string_of_Z z
  | PStr s => s
  | PFloat _ | PList _ | PDict _ => py_repr x
  end.

End Str.

(** [d.get(k, default)] on a dict: a key that is present wins, whatever its
    value. *)
Definition dict_get_default (d : dict) (k : string) (default : pyval) : pyval :=
  match dict_lookup d k with
  | Some v => v
  | None => default
  end.

(** [x.get(k, default)] on any object. *)
Definition py_get_default (x : pyval) (k : string) (default : pyval)
  : result pyval :=
  match x with
  | PDict d => Ok (dict_get_default d k default)
  | _ => Err AttributeError
  end.

(** [x or y] *)
Definition py_or (x y : pyval) : pyval := if py_truthy x then x else y.

(** [x.lower()]: only text has the method. *)
Definition py_lower (x : pyval) : result string :=
  match x with
  | PStr s => Ok (lower s)
  | _ => Err AttributeError
  end.

(** [x in (None, "")]: equal to [None] or to the empty text. *)
Definition in_none_or_empty (x : pyval) : bool :=
  match x with
  | PNone => true
  | PStr s => String.eqb s ""
  | _ => false
  end.

(** [s in ids] for a set of texts. *)
Definition mem_string (s : string) (ids : list string) : bool :=
  existsb (String.eqb s) ids.

End Py.

(** ** const.py *)

Module Const.

Definition DOMAIN : string := "smart_oil_gauge".
Definition INTEGRATION_NAME : string := "Smart Oil Gauge".
Definition CONF_USERNAME : string := "username".
Definition CONF_PASSWORD : string := "password".
Definition CONF_SCAN_INTERVAL : string := "scan_interval".
Definition DEFAULT_SCAN_INTERVAL : Z := 3600.
Definition PLATFORMS : list string := ["sensor"; "binary_sensor"].

End Const.

(** ** The host's config entry, as the integration reads it *)

Module ConfigEntry.
Import Py.

Record ConfigEntry : Type := {
  entry_id : string;
  data : dict;
  options : dict
}.

End ConfigEntry.

(** ** entity.py *)

Module Entity.
Import Py.

(** [_safe_float]: only [ValueError] and [TypeError] are caught. *)
Definition _safe_float (x : pyval) : result (option float) :=
  match py_float x with
  | Ok f => Ok (Some f)
  | Err ValueError => Ok None
  | Err TypeError => Ok None
  | Err e => Err e
  end.

Definition _tanks_from (data : pyval) : result (list pyval) :=
  match data with
  | PNone => Ok []
  | _ =>
      if negb (isinstance_dict data) then Ok []
      else
        rbind (py_get data "tanks") (fun tanks =>
        match tanks with
        | PList l => Ok l
        | _ => Ok []
        end)
  end.

(** A tank entity: the coordinator's current [data] and the entity's
    [_tank_id]. *)
Record SmartOilTankEntity : Type := {
  coordinator_data : pyval;
  _tank_id : string
}.

Section Tank.

Variable py_repr : pyval -> string.

(** The loop of [_tank]: the first record whose [tank_id] prints as the
    entity's id. *)
Fixpoint first_tank (tanks : list pyval) (tank_id : string)
  : result (option pyval) :=
  match tanks with
  | [] => Ok None
  | t :: rest =>
      rbind (py_get t "tank_id") (fun id =>
      if String.eqb (py_str py_repr id) tank_id then Ok (Some t)
      else first_tank rest tank_id)
  end.

Definition _tank (self : SmartOilTankEntity) : result (option pyval) :=
  rbind (_tanks_from (coordinator_data self)) (fun tanks =>
  first_tank tanks (_tank_id self)).

End Tank.

(** Truth value of what [_tank] returns; Python's [None] is [None] here. *)
Definition truthy_tank (t : option pyval) : bool :=
  match t with
  | None => false
  | Some v => py_truthy v
  end.

(** [x or 0.0] for what [_safe_float] returns. *)
Definition or_zero (x : option float) : float :=
  match x with
  | Some f => if py_truthy (PFloat f) then f else fzero
  | None => fzero
  end.

(** **** [device_info] *)

Record DeviceInfo : Type := {
  identifiers : list (string * string);
  via_device : string * string;
  name : pyval;
  manufacturer : string;
  model : string;
  configuration_url : string
}.

Section DeviceInfo.

Variable py_repr : pyval -> string.

(** [device_info] of a tank entity that was created for the entry
    [entry]. *)
Definition device_info (entry : ConfigEntry.ConfigEntry)
    (self : SmartOilTankEntity) : result DeviceInfo :=
  rbind (_tank py_repr self) (fun found =>
  let t := if truthy_tank found
           then match found with Some v => v | None => PDict [] end
           else PDict [] in
  rbind (py_get t "tank_name") (fun tank_name =>
  Ok {| identifiers := [(Const.DOMAIN, "tank_" ++ _tank_id self)];
        via_device := (Const.DOMAIN, ConfigEntry.entry_id entry);
        name := py_or tank_name (PStr ("Tank " ++ _tank_id self));
        manufacturer := "Connected Consumer Fuel";
        model := "SmartOilGauge";
        configuration_url := "https://app.smartoilgauge.com/" |})).

End DeviceInfo.

(** **** Platform setup *)

(** What a platform's [async_setup_entry] closes over: the tank ids it has
    created entities for, and the batches it has handed to
    [async_add_entities], oldest first. *)
Record Platform (E : Type) : Type := {
  created_tank_ids : list string;
  add_calls : list (list E)
}.
Arguments created_tank_ids {E} _.
Arguments add_calls {E} _.

(** [async_add_entities(batch)] *)
Definition async_add_entities {E} (batch : list E) (p : Platform E)
  : Platform E :=
  {| created_tank_ids := created_tank_ids p;
     add_calls := (add_calls p ++ [batch])%list |}.

(** Every entity the platform has been given so far. *)
Definition added {E} (p : Platform E) : list E := List.concat (add_calls p).

End Entity.

(** ** sensor.py *)

Module Sensor.
Import Py Entity.

Section PercentFullSensor.

Variable py_repr : pyval -> string.

Definition native_value (self : SmartOilTankEntity)
  : result (option float) :=
  rbind (_tank py_repr self) (fun t =>
  match t with
  | Some t' =>
      if negb (truthy_tank t) then Ok None
      else
        rbind (py_get t' "sensor_gallons") (fun g =>
        rbind (_safe_float g) (fun gallons' =>
        let gallons := or_zero gallons' in
        rbind (py_get t' "nominal") (fun n =>
        rbind (_safe_float n) (fun capacity' =>
        let capacity := or_zero capacity' in
        if fleb capacity fzero then Ok (Some fzero)
        else
          rbind (fdiv gallons capacity) (fun q =>
          Ok (Some (round (fmul q (float_of_Z 100)) 2)))))))
  | None => Ok None
  end).

End PercentFullSensor.

(** *** The other sensor classes *)

Module AccountSensor.

(** The sensor reads the coordinator's data, not a tank. *)
Definition native_value (coordinator_data : pyval) : result Z :=
  rbind (_tanks_from coordinator_data) (fun tanks =>
  Ok (Z.of_nat (List.length tanks))).

End AccountSensor.

Module TankNameSensor.
Section Value.

Variable py_repr : pyval -> string.

Definition native_value (self : SmartOilTankEntity) : result pyval :=
  rbind (_tank py_repr self) (fun t =>
  match t with
  | Some t' => if truthy_tank t then py_get t' "tank_name" else Ok PNone
  | None => Ok PNone
  end).

End Value.
End TankNameSensor.

Module TankIdSensor.
Section Value.

Variable py_repr : pyval -> string.

Definition native_value (self : SmartOilTankEntity) : result pyval :=
  rbind (_tank py_repr self) (fun t =>
  match t with
  | Some t' => if truthy_tank t then py_get t' "tank_id" else Ok PNone
  | None => Ok PNone
  end).

End Value.
End TankIdSensor.

Module ZipSensor.
Section Value.

Variable py_repr : pyval -> string.

Definition native_value (self : SmartOilTankEntity) : result pyval :=
  rbind (_tank py_repr self) (fun t =>
  match t with
  | Some t' => if truthy_tank t then py_get t' "zip_code" else Ok PNone
  | None => Ok PNone
  end).

End Value.
End ZipSensor.

Module GallonsSensor.
Section Value.

Variable py_repr : pyval -> string.

Definition native_value (self : SmartOilTankEntity)
  : result (option float) :=
  rbind (_tank py_repr self) (fun t =>
  match t with
  | Some t' =>
      if truthy_tank t then
        rbind (py_get t' "sensor_gallons") (fun g => _safe_float g)
      else Ok None
  | None => Ok None
  end).

End Value.
End GallonsSensor.

Module NominalCapacitySensor.
Section Value.

Variable py_repr : pyval -> string.

Definition native_value (self : SmartOilTankEntity)
  : result (option float) :=
  rbind (_tank py_repr self) (fun t =>
  match t with
  | Some t' =>
      if negb (truthy_tank t) then Ok None
      else rbind (py_get t' "nominal") (fun n => _safe_float n)
  | None => Ok None
  end).

End Value.
End NominalCapacitySensor.

Module FillableCapacitySensor.
Section Value.

Variable py_repr : pyval -> string.

Definition native_value (self : SmartOilTankEntity)
  : result (option float) :=
  rbind (_tank py_repr self) (fun tank =>
  match tank with
  | Some tank' =>
      if negb (truthy_tank tank) then Ok None
      else rbind (py_get tank' "fillable") (fun n => _safe_float n)
  | None => Ok None
  end).

End Value.
End FillableCapacitySensor.

Module SensorUsgSensor.
Section Value.

Variable py_repr : pyval -> string.

Definition native_value (self : SmartOilTankEntity)
  : result (option float) :=
  rbind (_tank py_repr self) (fun t =>
  rbind (match t with
         | Some t' => if truthy_tank t then py_get t' "sensor_usg" else Ok PNone
         | None => Ok PNone
         end) (fun raw =>
  if in_none_or_empty raw then Ok None
  else _safe_float raw)).

End Value.
End SensorUsgSensor.

Module LowLevelSensor.
Section Value.

Variable py_repr : pyval -> string.

Definition native_value (self : SmartOilTankEntity)
  : result (option float) :=
  rbind (_tank py_repr self) (fun t =>
  match t with
  | Some t' =>
      if negb (truthy_tank t) then Ok None
      else
        rbind (py_get t' "low_level") (fun l =>
        rbind (_safe_float l) (fun fraction =>
        match fraction with
        | None => Ok None
        | Some f => Ok (Some (fmul f (float_of_Z 100)))
        end))
  | None => Ok None
  end).

End Value.
End LowLevelSensor.

Module BatteryStatusSensor.
Section Value.

Variable py_repr : pyval -> string.

Definition native_value (self : SmartOilTankEntity) : result pyval :=
  rbind (_tank py_repr self) (fun t =>
  match t with
  | Some t' => if truthy_tank t then py_get t' "battery" else Ok PNone
  | None => Ok PNone
  end).

Definition icon (self : SmartOilTankEntity) : result string :=
  rbind (native_value self) (fun v =>
  rbind (py_lower (py_or v (PStr ""))) (fun val =>
  Ok (if String.eqb val "excellent" then "mdi:battery"
      else "mdi:battery-alert"))).

End Value.
End BatteryStatusSensor.

Module StatusSensor.
Section Value.

Variable py_repr : pyval -> string.

Definition native_value (self : SmartOilTankEntity) : result pyval :=
  rbind (_tank py_repr self) (fun t =>
  match t with
  | Some t' => if truthy_tank t then py_get t' "sensor_status" else Ok PNone
  | None => Ok PNone
  end).

End Value.
End StatusSensor.

(** *** [async_setup_entry] *)

Inductive SensorClass : Type :=
| TankName | TankId | Gallons | SensorUsg | PercentFull | LastRead
| BatteryStatus | Status | NominalCapacity | FillableCapacity | LowLevel
| Zip.

(** The entities of the platform, with what their constructors are given
    besides the coordinator. *)
Inductive SensorEntity : Type :=
| AccountEntity (entry_id : string)
| TankEntity (cls : SensorClass) (entry_id tank_id : string).

(** The last part of [_attr_unique_id]. *)
Definition unique_suffix (cls : SensorClass) : string :=
  match cls with
  | TankName => "name"
  | TankId => "tank_id"
  | Gallons => "gallons"
  | SensorUsg => "sensor_usg"
  | PercentFull => "percent"
  | LastRead => "last_read"
  | BatteryStatus => "battery_status"
  | Status => "sensor_status"
  | NominalCapacity => "nominal"
  | FillableCapacity => "fillable"
  | LowLevel => "low_level"
  | Zip => "zip"
  end.

Definition unique_id (e : SensorEntity) : string :=
  match e with
  | AccountEntity entry_id => entry_id ++ "_tank_count"
  | TankEntity cls entry_id tank_id =>
      entry_id ++ "_" ++ tank_id ++ "_" ++ unique_suffix cls
  end.

Section Setup.

Variable py_repr : pyval -> string.
Variable entry : ConfigEntry.ConfigEntry.

(** [str(tank.get("tank_id", "unknown"))] *)
Definition tank_id_of (tank : pyval) : result string :=
  rbind (py_get_default tank "tank_id" (PStr "unknown")) (fun v =>
  Ok (py_str py_repr v)).

Definition build_entities_for_tank (tank : pyval)
  : result (list SensorEntity) :=
  rbind (tank_id_of tank) (fun tank_id =>
  let e := ConfigEntry.entry_id entry in
  Ok [TankEntity TankName e tank_id;
      TankEntity TankId e tank_id;
      TankEntity Gallons e tank_id;
      TankEntity SensorUsg e tank_id;
      TankEntity PercentFull e tank_id;
      TankEntity LastRead e tank_id;
      TankEntity BatteryStatus e tank_id;
      TankEntity Status e tank_id;
      TankEntity NominalCapacity e tank_id;
      TankEntity FillableCapacity e tank_id;
      TankEntity LowLevel e tank_id;
      TankEntity Zip e tank_id]).

(** The loop over the tanks, shared by the setup and by the listener: the
    set of created ids is changed in place, so it keeps what the loop added
    when a later record raises. *)
Fixpoint add_new_tanks (tanks : list pyval) (created : list string)
    (entities : list SensorEntity)
  : result (list SensorEntity) * list string :=
  match tanks with
  | [] => (Ok entities, created)
  | tank :: rest =>
      match tank_id_of tank with
      | Err e => (Err e, created)
      | Ok tank_id =>
          if negb (mem_string tank_id created) then
            match build_entities_for_tank tank with
            | Err e => (Err e, tank_id :: created)
            | Ok built =>
                add_new_tanks rest (tank_id :: created)
                  (entities ++ built)%list
            end
          else add_new_tanks rest created entities
      end
  end.

(** [async_setup_entry]: the platform state it leaves behind, when it
    returns. *)
Definition async_setup_entry (coordinator_data : pyval)
  : result (Platform SensorEntity) :=
  rbind (_tanks_from coordinator_data) (fun tanks =>
  let entities := [AccountEntity (ConfigEntry.entry_id entry)] in
  match add_new_tanks tanks [] entities with
  | (Err e, _) => Err e
  | (Ok entities', created) =>
      let p := {| created_tank_ids := created; add_calls := [] |} in
      Ok (match entities' with
          | [] => p
          | _ => async_add_entities entities' p
          end)
  end).

(** The listener [_coordinator_updated], run on the coordinator's current
    data. *)
Definition _coordinator_updated (coordinator_data : pyval)
    (p : Platform SensorEntity) : result unit * Platform SensorEntity :=
  match _tanks_from coordinator_data with
  | Err e => (Err e, p)
  | Ok tanks =>
      match add_new_tanks tanks (created_tank_ids p) [] with
      | (Err e, created) =>
          (Err e, {| created_tank_ids := created; add_calls := add_calls p |})
      | (Ok new_entities, created) =>
          let p' := {| created_tank_ids := created;
                       add_calls := add_calls p |} in
          (Ok tt, match new_entities with
                  | [] => p'
                  | _ => async_add_entities new_entities p'
                  end)
      end
  end.

End Setup.

End Sensor.

(** ** binary_sensor.py *)

Module BinarySensor.
Import Py Entity.

Section LowOilSensor.

Variable py_repr : pyval -> string.

Definition is_on (self : SmartOilTankEntity) : result (option bool) :=
  rbind (_tank py_repr self) (fun t =>
  match t with
  | Some t' =>
      if negb (truthy_tank t) then Ok None
      else
        rbind (py_get t' "sensor_gallons") (fun g =>
        rbind (_safe_float g) (fun gallons =>
        rbind (py_get t' "low_level") (fun l =>
        rbind (_safe_float l) (fun low_fraction =>
        rbind (py_get t' "nominal") (fun n =>
        rbind (_safe_float n) (fun capacity =>
        match gallons, capacity, low_fraction with
        | Some g', Some c', Some l' => Ok (Some (fleb g' (fmul c' l')))
        | _, _, _ => Ok None
        end))))))
  | None => Ok None
  end).

End LowOilSensor.

(** *** [async_setup_entry] *)

Inductive BinaryEntity : Type :=
| LowOilEntity (entry_id tank_id : string).

Definition unique_id (e : BinaryEntity) : string :=
  match e with
  | LowOilEntity entry_id tank_id => entry_id ++ "_" ++ tank_id ++ "_low_oil"
  end.

Section Setup.

Variable py_repr : pyval -> string.
Variable entry : ConfigEntry.ConfigEntry.

(** [str(tank.get("tank_id", "unknown"))] *)
Definition tank_id_of (tank : pyval) : result string :=
  rbind (py_get_default tank "tank_id" (PStr "unknown")) (fun v =>
  Ok (py_str py_repr v)).

Definition build_entities_for_tank (tank : pyval)
  : result (list BinaryEntity) :=
  rbind (tank_id_of tank) (fun tank_id =>
  Ok [LowOilEntity (ConfigEntry.entry_id entry) tank_id]).

Fixpoint add_new_tanks (tanks : list pyval) (created : list string)
    (entities : list BinaryEntity)
  : result (list BinaryEntity) * list string :=
  match tanks with
  | [] => (Ok entities, created)
  | tank :: rest =>
      match tank_id_of tank with
      | Err e => (Err e, created)
      | Ok tank_id =>
          if negb (mem_string tank_id created) then
            match build_entities_for_tank tank with
            | Err e => (Err e, tank_id :: created)
            | Ok built =>
                add_new_tanks rest (tank_id :: created)
                  (entities ++ built)%list
            end
          else add_new_tanks rest created entities
      end
  end.

(** [async_setup_entry]; the logging of the first tank, whose own
    exceptions are swallowed, is left out. *)
Definition async_setup_entry (coordinator_data : pyval)
  : result (Platform BinaryEntity) :=
  rbind (_tanks_from coordinator_data) (fun tanks =>
  match add_new_tanks tanks [] [] with
  | (Err e, _) => Err e
  | (Ok entities, created) =>
      let p := {| created_tank_ids := created; add_calls := [] |} in
      Ok (match entities with
          | [] => p
          | _ => async_add_entities entities p
          end)
  end).

Definition _coordinator_updated (coordinator_data : pyval)
    (p : Platform BinaryEntity) : result unit * Platform BinaryEntity :=
  match _tanks_from coordinator_data with
  | Err e => (Err e, p)
  | Ok tanks =>
      match add_new_tanks tanks (created_tank_ids p) [] with
      | (Err e, created) =>
          (Err e, {| created_tank_ids := created; add_calls := add_calls p |})
      | (Ok new_entities, created) =>
          let p' := {| created_tank_ids := created;
                       add_calls := add_calls p |} in
          (Ok tt, match new_entities with
                  | [] => p'
                  | _ => async_add_entities new_entities p'
                  end)
      end
  end.

End Setup.

End BinarySensor.

(** ** api.py *)

Module Api.
Import Py.

Definition LOGIN_URL : string := "https://app.smartoilgauge.com/login.php".
Definition AJAX_URL : string := "https://app.smartoilgauge.com/ajax/main_ajax.php".

Definition USER_FIELD : string := "username".
Definition PASS_FIELD : string := "user_pass".
Definition DEFAULT_TIMEOUT : Z := 15.

(** *** The HTTP session *)

Inductive Method : Type := GET | POST.

Inductive Payload : Type :=
| NoPayload
| FormFields (fields : list (string * string))
| RawBody (body : string).

Record Request : Type := {
  method : Method;
  url : string;
  payload : Payload;
  headers : list (string * string);
  allow_redirects : bool;
  timeout : Z
}.

(** What the transport raises: [asyncio.TimeoutError], [aiohttp.ClientError]
    or something else. *)
Inductive NetFailure : Type := Timeout | ClientFailure | Unexpected.

Definition exn_of (f : NetFailure) : exn :=
  match f with
  | Timeout => TimeoutError
  | ClientFailure => ClientError
  | Unexpected => OtherException
  end.

(** A response: [resp.status], [resp.headers.get("Content-Type")], and what
    [resp.text()] and [resp.json()] give or raise. *)
Record Response : Type := {
  status : Z;
  content_type : option string;
  text : NetFailure + string;
  json : exn + pyval
}.

(** The server and the network: the answer to a request, given the requests
    sent before it (newest first). *)
Definition Transport : Type := list Request -> Request -> NetFailure + Response.

(** What a refresh can change: the requests that went through the session
    (newest first) and the coordinator's [data] attribute. *)
Record State : Type := {
  sent : list Request;
  data : pyval
}.

Definition M (A : Type) : Type := State -> result A * State.

Definition ret {A} (a : A) : M A := fun st => (Ok a, st).

Definition raise {A} (e : exn) : M A := fun st => (Err e, st).

Definition bind {A B} (m : M A) (k : A -> M B) : M B :=
  fun st =>
    match m st with
    | (Ok a, st') => k a st'
    | (Err e, st') => (Err e, st')
    end.

(** [try: m  except ...]: the handler picks the clause for an exception,
    [None] when no clause matches. *)
Definition try_except {A} (m : M A) (handler : exn -> option (M A)) : M A :=
  fun st =>
    match m st with
    | (Ok a, st') => (Ok a, st')
    | (Err e, st') =>
        match handler e with
        | Some h => h st'
        | None => (Err e, st')
        end
    end.

Declare Scope py_scope.
Delimit Scope py_scope with py.
Notation "x <- m ;; k" := (bind m (fun x => k))
  (at level 61, m at next level, right associativity) : py_scope.
Notation "m ;;; k" := (bind m (fun _ => k))
  (at level 61, right associativity) : py_scope.
Open Scope py_scope.

(** *** [_NONCE_RE] *)

Definition is_quote (c : ascii) : bool :=
  Ascii.eqb c "034"%char || Ascii.eqb c "039"%char.

(** [\s] on ASCII text. *)
Definition re_space (c : ascii) : bool :=
  let n := nat_of_ascii c in
  ((9 <=? n)%nat && (n <=? 13)%nat) || ((28 <=? n)%nat && (n <=? 32)%nat).

Fixpoint skip_spaces (l : list ascii) : list ascii :=
  match l with
  | c :: l' => if re_space c then skip_spaces l' else l
  | [] => []
  end.

Fixpoint span_nonquote (l : list ascii) : list ascii * list ascii :=
  match l with
  | c :: l' =>
      if is_quote c then ([], l)
      else let '(g, rest) := span_nonquote l' in (c :: g, rest)
  | [] => ([], [])
  end.

Definition expect_quote (l : list ascii) : option (list ascii) :=
  match l with
  | c :: l' => if is_quote c then Some l' else None
  | [] => None
  end.

Definition expect_spaces (l : list ascii) : option (list ascii) :=
  match l with
  | c :: l' => if re_space c then Some (skip_spaces l') else None
  | [] => None
  end.

Definition obind {A B} (o : option A) (k : A -> option B) : option B :=
  match o with
  | Some a => k a
  | None => None
  end.

(** The pattern anchored at the head of [l]; the result is group 1. *)
Definition nonce_match (l : list ascii) : option string :=
  obind (match_ci (list_ascii_of_string "name=") l) (fun l1 =>
  obind (expect_quote l1) (fun l2 =>
  obind (match_ci (list_ascii_of_string "ccf_nonce") l2) (fun l3 =>
  obind (expect_quote l3) (fun l4 =>
  obind (expect_spaces l4) (fun l5 =>
  obind (match_ci (list_ascii_of_string "value=") l5) (fun l6 =>
  obind (expect_quote l6) (fun l7 =>
  let '(g, l8) := span_nonquote l7 in
  match g with
  | [] => None
  | _ => obind (expect_quote l8) (fun _ => Some (string_of_list_ascii g))
  end))))))).

Fixpoint nonce_search (l : list ascii) : option string :=
  match nonce_match l with
  | Some g => Some g
  | None =>
      match l with
      | [] => None
      | _ :: l' => nonce_search l'
      end
  end.

(** [_NONCE_RE.search(text)], then [match.group(1)]. *)
Definition _NONCE_RE_search (text : string) : option string :=
  nonce_search (list_ascii_of_string text).

Section Client.

Variable py_repr : pyval -> string.
Variable transport : Transport.

(** [session.get] and [session.post]: the request is recorded, the
    transport answers. *)
Definition request (r : Request) : M Response :=
  fun st =>
    let st' := {| sent := r :: sent st; data := data st |} in
    match transport (sent st) r with
    | inl f => (Err (exn_of f), st')
    | inr resp => (Ok resp, st')
    end.

(** [await resp.text()] *)
Definition read_text (resp : Response) : M string :=
  match text resp with
  | inl f => raise (exn_of f)
  | inr s => ret s
  end.

(** [await resp.json()] *)
Definition read_json (resp : Response) : M pyval :=
  match json resp with
  | inl e => raise e
  | inr v => ret v
  end.

(** **** [_fetch_nonce] *)

Definition nonce_request : Request :=
  {| method := GET; url := LOGIN_URL; payload := NoPayload; headers := [];
     allow_redirects := true; timeout := DEFAULT_TIMEOUT |}.

(** The body of the [try]. *)
Definition _fetch_nonce_try : M string :=
  resp <- request nonce_request ;;
  read_text resp.

Definition _fetch_nonce : M (option string) :=
  text <- try_except _fetch_nonce_try (fun err =>
    match err with
    | TimeoutError => Some (raise (ApiError TimeoutFetchingLoginPage))
    | ClientError => Some (raise (ApiError ErrorFetchingLoginPage))
    | _ => None
    end) ;;
  ret (_NONCE_RE_search text).

(** **** [login] *)

Definition login_request (username password : string) (nonce : option string)
  : Request :=
  {| method := POST;
     url := LOGIN_URL;
     payload := FormFields
       ([(USER_FIELD, username); (PASS_FIELD, password)] ++
        match nonce with
        | Some n => if String.eqb n "" then [] else [("ccf_nonce", n)]
        | None => []
        end)%list;
     headers := [("Origin", "https://app.smartoilgauge.com");
                 ("Referer", LOGIN_URL);
                 ("Content-Type", "application/x-www-form-urlencoded");
                 ("User-Agent", "Mozilla/5.0")];
     allow_redirects := true;
     timeout := DEFAULT_TIMEOUT |}.

(** The body of the [try]. *)
Definition login_try (username password : string) (nonce : option string)
  : M string :=
  resp <- request (login_request username password nonce) ;;
  if 500 <=? status resp then
    raise (ApiError (LoginFailedHTTP (status resp)))
  else if (status resp =? 401) || (status resp =? 403) then
    raise (AuthError (LoginUnauthorizedHTTP (status resp)))
  else read_text resp.

Definition login (username password : string) : M unit :=
  nonce <- _fetch_nonce ;;
  text <- try_except (login_try username password nonce) (fun err =>
    match err with
    | TimeoutError => Some (raise (ApiError TimeoutPostingLoginForm))
    | ClientError => Some (raise (ApiError HTTPErrorDuringLogin))
    | _ => None
    end) ;;
  if contains ("name=" ++ dquote ++ "user_pass" ++ dquote) text
     || contains "user_pass" text then
    raise (AuthError LoginFormStillPresent)
  else if contains "Login" text && contains "Smart Oil Gauge" text then
    raise (AuthError LoginPageReturned)
  else ret tt.

(** **** [get_tanks_list] *)

Definition tanks_request : Request :=
  {| method := POST;
     url := AJAX_URL;
     payload := RawBody "action=get_tanks_list&tank_id=0";
     headers := [("X-Requested-With", "XMLHttpRequest");
                 ("Content-Type",
                  "application/x-www-form-urlencoded; charset=UTF-8");
                 ("Accept", "application/json");
                 ("Origin", "https://app.smartoilgauge.com");
                 ("Referer", "https://app.smartoilgauge.com/");
                 ("User-Agent", "Mozilla/5.0")];
     allow_redirects := true;
     timeout := DEFAULT_TIMEOUT |}.

(** The body of the outer [try]. *)
Definition get_tanks_list_try : M pyval :=
  resp <- request tanks_request ;;
  if (status resp =? 401) || (status resp =? 403) then
    raise (AuthError (TankListUnauthorizedHTTP (status resp)))
  else if 400 <=? status resp then
    raise (ApiError (TankListFailedHTTP (status resp)))
  else
    let ctype := match content_type resp with Some c => c | None => "" end in
    text <- read_text resp ;;
    if negb (contains "application/json" ctype) then
      if contains "ccf_nonce" text || contains "user_pass" text
         || contains "Login" text then
        raise (AuthError SessionExpired)
      else raise (ApiError (UnexpectedContentType ctype))
    else
      try_except (read_json resp) (fun _ =>
        Some (raise (ApiError FailedToDecodeJSON))).

Definition get_tanks_list : M pyval :=
  data <- try_except get_tanks_list_try (fun err =>
    match err with
    | TimeoutError => Some (raise (ApiError TimeoutTalking))
    | ClientError => Some (raise (ApiError HTTPErrorTalking))
    | _ => None
    end) ;;
  match data with
  | PDict d =>
      let status := dict_get d "Status" in
      if py_eq_int status 401 || py_eq_int status 403 then
        raise (AuthError (APIUnauthorizedStatus status))
      else
        let result := dict_get d "result" in
        if negb (is_none result)
           && negb (String.eqb (lower (py_str py_repr result)) "ok") then
          raise (ApiError (APIResultError result))
        else ret data
  | _ => ret data
  end.

End Client.

(** The state after one request. *)
Definition after (r : Request) (st : State) : State :=
  {| sent := r :: sent st; data := data st |}.

(** *** Observing the three network operations *)

Inductive Call : Type :=
| CallFetchNonce
| CallLogin (username password : string)
| CallGetTanksList.

Definition error_of {A} (r : result A) : option exn :=
  match r with
  | Ok _ => None
  | Err e => Some e
  end.

Section Observe.

Variable py_repr : pyval -> string.
Variable transport : Transport.

(** The exception that leaves a call started in [st], if any. *)
Definition raised (c : Call) (st : State) : option exn :=
  match c with
  | CallFetchNonce => error_of (fst (_fetch_nonce transport st))
  | CallLogin u p => error_of (fst (login transport u p st))
  | CallGetTanksList => error_of (fst (get_tanks_list py_repr transport st))
  end.

(** A network operation of the call times out: the body of one of its
    [try] statements raises [asyncio.TimeoutError]. *)
Inductive times_out : Call -> State -> Prop :=
| timeout_fetch_nonce st :
    fst (_fetch_nonce_try transport st) = Err TimeoutError ->
    times_out CallFetchNonce st
| timeout_login_page u p st :
    fst (_fetch_nonce_try transport st) = Err TimeoutError ->
    times_out (CallLogin u p) st
| timeout_login_post u p st nonce st1 :
    _fetch_nonce transport st = (Ok nonce, st1) ->
    fst (login_try transport u p nonce st1) = Err TimeoutError ->
    times_out (CallLogin u p) st
| timeout_tanks st :
    fst (get_tanks_list_try transport st) = Err TimeoutError ->
    times_out CallGetTanksList st.

End Observe.

End Api.

(** ** __init__.py *)

Module Coordinator.
Import Py Api.

(** The coordinator keeps the credentials for re-login and the polling
    interval; its client is the session of the [State]. *)
Record SmartOilGaugeDataUpdateCoordinator : Type := {
  _username : string;
  _password : string;
  scan_interval : Z
}.

Section Update.

Variable py_repr : pyval -> string.
Variable transport : Transport.

(** The handler of the initial [AuthError]: re-login, then one retry. *)
Definition relogin_and_retry (self : SmartOilGaugeDataUpdateCoordinator)
  : M pyval :=
  try_except
    (login transport (_username self) (_password self) ;;;
     get_tanks_list py_repr transport)
    (fun err =>
       match err with
       | AuthError _ => Some (raise ConfigEntryAuthFailed)
       | _ => Some (raise (UpdateFailed ReLoginFailed))
       end).

Definition _async_update_data (self : SmartOilGaugeDataUpdateCoordinator)
  : M pyval :=
  try_except (get_tanks_list py_repr transport) (fun err =>
    match err with
    | AuthError _ => Some (relogin_and_retry self)
    | ApiError _ => Some (raise (UpdateFailed ApiFailure))
    | _ => Some (raise (UpdateFailed UnexpectedError))
    end).

(** The states in which a refresh started in [st] calls
    [get_tanks_list]: at once, and once more after an [AuthError] followed
    by a successful login. *)
Inductive fetch_attempt (self : SmartOilGaugeDataUpdateCoordinator)
    (st : State) : State -> Prop :=
| first_attempt : fetch_attempt self st st
| retry_attempt k st1 st2 :
    get_tanks_list py_repr transport st = (Err (AuthError k), st1) ->
    login transport (_username self) (_password self) st1 = (Ok tt, st2) ->
    fetch_attempt self st st2.

End Update.

(** The polling interval that [async_setup_entry] reads from the entry: the
    options first, then the entry data, then the default. *)
Definition entry_scan_interval (entry : ConfigEntry.ConfigEntry) : pyval :=
  dict_get_default (ConfigEntry.options entry) Const.CONF_SCAN_INTERVAL
    (dict_get_default (ConfigEntry.data entry) Const.CONF_SCAN_INTERVAL
       (PInt Const.DEFAULT_SCAN_INTERVAL)).

End Coordinator.

(** ** config_flow.py *)

Module ConfigFlow.
Import Py Api.

(** The user step's [user_input] once the form's schema has accepted it: two
    texts and, when given, an integer. *)
Record UserInput : Type := {
  username : string;
  password : string;
  scan_interval : option Z
}.

Inductive Schema : Type :=
| UserSchema (username_default : string) (scan_interval_default : Z)
| OptionsSchema (scan_interval_default : pyval).

(** What a step hands back to the host; [AbortFlow] stands for the
    exception with which the host's unique-id check ends the step. *)
Inductive FlowResult : Type :=
| CreateEntry (title : string) (entry_data : dict)
| ShowForm (step_id : string) (data_schema : Schema)
    (errors : list (string * string))
| AbortFlow.

(** The session [async_create_clientsession] returns: nothing sent yet. *)
Definition new_session : State := {| sent := []; data := PNone |}.

Section Flow.

Variable py_repr : pyval -> string.
Variable transport : Transport.

(** The host's answer to [async_set_unique_id] followed by
    [_abort_if_unique_id_configured]: does it end the step for this unique
    id, because an entry has it or a flow for it is in progress? *)
Variable unique_id_taken : string -> bool.

Definition _async_validate_input (user_input : UserInput)
  : result (option string) * State :=
  try_except
    (login transport (username user_input) (password user_input) ;;;
     get_tanks_list py_repr transport ;;;
     ret None)
    (fun err =>
       match err with
       | AuthError _ => Some (ret (Some "auth"))
       | ApiError _ => Some (ret (Some "cannot_connect"))
       | _ => Some (ret (Some "unknown"))
       end)
    new_session.

Definition _show_user_form (errors : list (string * string))
    (user_input : option UserInput) : FlowResult :=
  let username_default :=
    match user_input with
    | Some ui => username ui
    | None => ""
    end in
  let scan_interval_default :=
    match user_input with
    | Some ui =>
        match scan_interval ui with
        | Some n => n
        | None => Const.DEFAULT_SCAN_INTERVAL
        end
    | None => Const.DEFAULT_SCAN_INTERVAL
    end in
  ShowForm "user" (UserSchema username_default scan_interval_default) errors.

Definition async_step_user (user_input : option UserInput)
  : result FlowResult :=
  match user_input with
  | Some ui =>
      match fst (_async_validate_input ui) with
      | Err e => Err e
      | Ok None =>
          if unique_id_taken (username ui) then Ok AbortFlow
          else
            Ok (CreateEntry (username ui)
                  [(Const.CONF_USERNAME, PStr (username ui));
                   (Const.CONF_PASSWORD, PStr (password ui));
                   (Const.CONF_SCAN_INTERVAL,
                    PInt (match scan_interval ui with
                          | Some n => n
                          | None => Const.DEFAULT_SCAN_INTERVAL
                          end))])
      | Ok (Some error) => Ok (_show_user_form [("base", error)] user_input)
      end
  | None => Ok (_show_user_form [] user_input)
  end.

End Flow.

(** [SmartOilGaugeOptionsFlow.async_step_init] *)
Definition async_step_init (entry : ConfigEntry.ConfigEntry)
    (user_input : option dict) : FlowResult :=
  match user_input with
  | Some ui => CreateEntry "" ui
  | None =>
      let current_scan_interval :=
        dict_get_default (ConfigEntry.options entry) Const.CONF_SCAN_INTERVAL
          (dict_get_default (ConfigEntry.data entry) Const.CONF_SCAN_INTERVAL
             (PInt Const.DEFAULT_SCAN_INTERVAL)) in
      ShowForm "init" (OptionsSchema current_scan_interval) []
  end.

End ConfigFlow.

(** ** Concrete inputs *)

Module Fixtures.
Import Py Entity Api Coordinator.

(** A [repr] for inputs without floats or containers in printed position. *)
Definition repr_unused (_ : pyval) : string := "".

(** A transport that answers the [n]-th request with the [n]-th entry. *)
Definition scripted (answers : list (NetFailure + Response)) : Transport :=
  fun history _ => nth (List.length history) answers (inl ClientFailure).

Definition html (code : Z) (body : string) : Response :=
  {| status := code; content_type := Some "text/html";
     text := inr body; json := inl ValueError |}.

Definition json_reply (code : Z) (body : string) (v : pyval) : Response :=
  {| status := code; content_type := Some "application/json";
     text := inr body; json := inr v |}.

Definition fresh : State := {| sent := []; data := PNone |}.

Definition cached (snapshot : pyval) : State :=
  {| sent := []; data := snapshot |}.

Definition account : SmartOilGaugeDataUpdateCoordinator :=
  {| _username := "user@example.com"; _password := "secret";
     scan_interval := 3600 |}.

(** The login form, with its hidden nonce and its password field. *)
Definition login_page : string :=
  "<form><input name=" ++ dquote ++ "ccf_nonce" ++ dquote
  ++ " value=" ++ dquote ++ "n0" ++ dquote
  ++ "><input name=" ++ dquote ++ "user_pass" ++ dquote ++ "></form>".

(** The hidden form field of the login page: the quote character [q]
    around the three attribute values, the white space [sp] between the
    attributes. *)
Definition hidden_nonce_field (q : ascii) (sp n : string) : string :=
  "name=" ++ String q ("ccf_nonce" ++ String q (sp ++ "value="
  ++ String q (n ++ String q ""))).

(** A page that mentions a login and nothing else of the form. *)
Definition login_link : string := "<a href='/'>Login</a>".

Definition welcome_page : string := "<h1>My Tanks</h1>".

(** The text [{"Status":401}] and its parse. *)
Definition status_401_text : string :=
  "{" ++ dquote ++ "Status" ++ dquote ++ ":401}".

Definition status_401 : pyval := PDict [("Status", PInt 401)].

Definition expired : NetFailure + Response :=
  inr (json_reply 200 status_401_text status_401).

Definition one_tank : pyval :=
  PDict [("result", PStr "ok");
         ("tanks", PList [PDict [("tank_id", PInt 1);
                                 ("sensor_gallons", PStr "150.5");
                                 ("nominal", PStr "300")]])].

(** Session expired, login accepted, session still refused. *)
Definition still_refused : Transport :=
  scripted [expired; inr (html 200 login_page); inr (html 200 welcome_page);
            expired].

(** Session expired, login accepted, the retry times out. *)
Definition retry_times_out : Transport :=
  scripted [expired; inr (html 200 login_page); inr (html 200 welcome_page);
            inl Timeout].

(** Session expired, login accepted, the retry delivers. *)
Definition retry_delivers : Transport :=
  scripted [expired; inr (html 200 login_page); inr (html 200 welcome_page);
            inr (json_reply 200 "" one_tank)].

(** Session expired and the login form comes back after the POST. *)
Definition bad_credentials : Transport :=
  scripted [expired; inr (html 200 login_page); inr (html 200 login_page)].

(** The login form comes back after the POST. *)
Definition login_rejected : Transport :=
  scripted [inr (html 200 login_page); inr (html 200 login_page)].

(** Session expired and the login page cannot be reached. *)
Definition login_unreachable : Transport :=
  scripted [expired; inl Timeout].

(** An HTML page instead of JSON. *)
Definition html_instead (body : string) : Transport :=
  scripted [inr (html 200 body)].

Definition always_timeout : Transport := fun _ _ => inl Timeout.

(** A new session on which the login is accepted and the tanks come. *)
Definition login_then_tanks : Transport :=
  scripted [inr (html 200 login_page); inr (html 200 welcome_page);
            inr (json_reply 200 "" one_tank)].

(** What a new user submits, without a scan interval. *)
Definition new_user : ConfigFlow.UserInput :=
  {| ConfigFlow.username := "user@example.com";
     ConfigFlow.password := "secret";
     ConfigFlow.scan_interval := None |}.

Definition tank_150 : pyval :=
  PDict [("tank_id", PInt 1); ("sensor_gallons", PStr "150.5");
         ("nominal", PStr "300")].

Definition tank_150_low : pyval :=
  PDict [("tank_id", PInt 1); ("sensor_gallons", PStr "150.5");
         ("nominal", PStr "300"); ("low_level", PStr "0.25")].

Definition snapshot_of (tank : pyval) : pyval :=
  PDict [("tanks", PList [tank])].

Definition entity_of (snapshot : pyval) (id : string) : SmartOilTankEntity :=
  {| coordinator_data := snapshot; _tank_id := id |}.

(** The sensor classes in the order in which [build_entities_for_tank]
    instantiates them. *)
Definition all_sensor_classes : list Sensor.SensorClass :=
  [Sensor.TankName; Sensor.TankId; Sensor.Gallons; Sensor.SensorUsg;
   Sensor.PercentFull; Sensor.LastRead; Sensor.BatteryStatus; Sensor.Status;
   Sensor.NominalCapacity; Sensor.FillableCapacity; Sensor.LowLevel;
   Sensor.Zip].

(** The twelve sensors of one tank. *)
Definition tank_sensors (entry_id tank_id : string)
  : list Sensor.SensorEntity :=
  map (fun cls => Sensor.TankEntity cls entry_id tank_id) all_sensor_classes.

(** A snapshot with the given tank records. *)
Definition snapshot_with (tanks : list pyval) : pyval :=
  PDict [("tanks", PList tanks)].

Definition entry0 : ConfigEntry.ConfigEntry :=
  {| ConfigEntry.entry_id := "entry0"; ConfigEntry.data := [];
     ConfigEntry.options := [] |}.

(** A platform that has set nothing up yet. *)
Definition no_sensors : Platform Sensor.SensorEntity :=
  {| created_tank_ids := []; add_calls := [] |}.

(** A record without a capacity and with unreadable gallons. *)
Definition fields_no_capacity : dict :=
  [("tank_id", PInt 1); ("sensor_gallons", PStr "n/a")].

(** The binary64 number that the literal [50.17] denotes. *)
Definition f_50_17 : float := S754_finite false 7060799790786806 (-47).

(** [75.0] *)
Definition f_75 : float := float_of_Z 75.

(** A tank that its owner has named. *)
Definition tank_basement : pyval :=
  PDict [("tank_id", PInt 7); ("tank_name", PStr "Basement")].

(** Three records of two tanks: tank 1, tank 7, and tank 1 again. *)
Definition three_records : list pyval :=
  [tank_150; tank_basement; tank_150_low].

(** The sensor platform once it has been set up with tank 1 alone. *)
Definition sensors_of_tank_1 : Platform Sensor.SensorEntity :=
  {| created_tank_ids := ["1"];
     add_calls := [Sensor.AccountEntity "entry0"
                   :: tank_sensors "entry0" "1"] |}.

End Fixtures.

(** ** Properties *)

Import Py Entity Api Coordinator Fixtures.

(** Unfolding the monadic definitions and splitting on what they inspect. *)
Ltac run :=
  unfold get_tanks_list, get_tanks_list_try, login, login_try, _fetch_nonce,
    _fetch_nonce_try, try_except, bind, request, read_text, read_json,
    raise, ret in *.

Ltac break_inner x :=
  lazymatch x with
  | context [match _ with _ => _ end] => fail
  | _ => destruct x eqn:?
  end.

Ltac break_match :=
  match goal with
  | H : context [match ?x with _ => _ end] |- _ => break_inner x
  | |- context [match ?x with _ => _ end] => break_inner x
  end.

Ltac pair_inv :=
  repeat match goal with
  | H : (_, _) = (_, _) |- _ => inversion H; subst; clear H
  | H : Ok _ = Ok _ |- _ => inversion H; subst; clear H
  | H : Err _ = Err _ |- _ => inversion H; subst; clear H
  end.

Ltac break_net :=
  repeat match goal with
  | n : NetFailure |- _ => destruct n
  end.

(** *** Tank entities *)

Lemma first_tank_is_dict py_repr tanks id t :
  first_tank py_repr tanks id = Ok (Some t) -> exists d, t = PDict d.
Proof.
  induction tanks as [|x rest IH]; simpl; [discriminate|].
  destruct x; simpl; try discriminate.
  destruct (String.eqb _ id); [|exact IH].
  intros H; injection H as <-; eauto.
Qed.

Lemma safe_float_missing d k :
  dict_lookup d k = None -> _safe_float (dict_get d k) = Ok None.
Proof. unfold dict_get; intros ->; reflexivity. Qed.

Lemma fleb_zero_not_zero (c : float) :
  fleb c fzero = false -> is_zero c = false.
Proof. destruct c as [[]|[]| |[] m e]; cbv; congruence. Qed.

Lemma or_zero_truthy (x : option float) :
  fleb (or_zero x) fzero = false -> is_zero (or_zero x) = false.
Proof. apply fleb_zero_not_zero. Qed.

Lemma tanks_from_closed_form (snapshot : pyval) :
  _tanks_from snapshot =
    Ok (match snapshot with
        | PDict d =>
            match dict_lookup d "tanks" with
            | Some (PList l) => l
            | _ => []
            end
        | _ => []
        end).
Proof.
  destruct snapshot as [| | | | | |d]; try reflexivity.
  unfold _tanks_from, py_get, dict_get; simpl.
  destruct (dict_lookup d "tanks") as [[]|]; reflexivity.
Qed.

(** C9: [_tanks_from] returns for every input, never raises, and its value
    is the [tanks] entry when the input is a mapping whose [tanks] entry is
    a list, and the empty list for [None], for a non-mapping and for a
    missing or non-list entry. *)
Theorem C9_tanks_from_total (snapshot : pyval) :
  _tanks_from snapshot =
    Ok (match snapshot with
        | PDict d =>
            match dict_lookup d "tanks" with
            | Some (PList l) => l
            | _ => []
            end
        | _ => []
        end).
Proof. apply tanks_from_closed_form. Qed.

(** C8: with gallons 150.5 and capacity 300 the percent-full value is the
    float 50.17, which is round(150.5 / 300 * 100, 2); with the low level
    0.25 the threshold is 75 gallons and the low-oil sensor is off. *)
Theorem C8_percent_full_and_low_oil (py_repr : pyval -> string) :
  Sensor.native_value py_repr (entity_of (snapshot_of tank_150) "1")
    = Ok (Some f_50_17)
  /\ float_of_string "50.17" = Some f_50_17
  /\ BinarySensor.is_on py_repr (entity_of (snapshot_of tank_150_low) "1")
    = Ok (Some false)
  /\ rbind (py_float (PStr "300")) (fun c =>
     rbind (py_float (PStr "0.25")) (fun l => Ok (fmul c l))) = Ok f_75
  /\ rbind (py_float (PStr "150.5")) (fun g => Ok (fleb g f_75)) = Ok false.
Proof. repeat split; vm_compute; reflexivity. Qed.

Lemma or_zero_nonpositive (n : option float) :
  (n = None \/ exists c, n = Some c /\ fleb c fzero = true) ->
  fleb (or_zero n) fzero = true.
Proof.
  intros [-> | [c [-> Hc]]]; [reflexivity|].
  unfold or_zero; simpl.
  destruct (is_zero c); [reflexivity|exact Hc].
Qed.

(** C10, as the code has it: for every non-empty tank record whose two
    fields convert without overflow, the percent-full value is 0.0 when the
    nominal capacity is missing, non-numeric or not positive, a missing or
    non-numeric [sensor_gallons] counts as 0.0, and the division happens only
    with a non-zero capacity, so it never raises [ZeroDivisionError]. *)
Theorem C10_percent_full_guarded
    (py_repr : pyval -> string) (self : SmartOilTankEntity)
    (d : dict) (g n : option float) :
  _tank py_repr self = Ok (Some (PDict d)) ->
  py_truthy (PDict d) = true ->
  _safe_float (dict_get d "sensor_gallons") = Ok g ->
  _safe_float (dict_get d "nominal") = Ok n ->
  Sensor.native_value py_repr self =
    Ok (Some (if fleb (or_zero n) fzero then fzero
              else round (fmul (SFdiv prec emax (or_zero g) (or_zero n))
                               (float_of_Z 100)) 2))
  /\ (fleb (or_zero n) fzero = false ->
      fdiv (or_zero g) (or_zero n)
        = Ok (SFdiv prec emax (or_zero g) (or_zero n)))
  /\ ((dict_lookup d "nominal" = None \/ n = None
       \/ exists c, n = Some c /\ fleb c fzero = true) ->
      Sensor.native_value py_repr self = Ok (Some fzero))
  /\ ((dict_lookup d "sensor_gallons" = None \/ g = None) ->
      or_zero g = fzero).
Proof.
  intros Ht Htruthy Hg Hn.
  assert (Hdiv : fleb (or_zero n) fzero = false ->
                 fdiv (or_zero g) (or_zero n)
                   = Ok (SFdiv prec emax (or_zero g) (or_zero n))).
  { intros Hc. unfold fdiv. now rewrite (or_zero_truthy _ Hc). }
  assert (Hval : Sensor.native_value py_repr self =
    Ok (Some (if fleb (or_zero n) fzero then fzero
              else round (fmul (SFdiv prec emax (or_zero g) (or_zero n))
                               (float_of_Z 100)) 2))).
  { unfold Sensor.native_value. rewrite Ht. cbn [rbind truthy_tank].
    rewrite Htruthy. cbn [negb py_get rbind]. rewrite Hg, Hn. cbn [rbind].
    destruct (fleb (or_zero n) fzero) eqn:Hc; [reflexivity|].
    rewrite (Hdiv eq_refl). reflexivity. }
  repeat split.
  - exact Hval.
  - exact Hdiv.
  - intros Hcases. rewrite Hval.
    assert (Hle : fleb (or_zero n) fzero = true).
    { apply or_zero_nonpositive.
      destruct Hcases as [Hmiss|[Hnone|Hneg]]; [left|left|right]; auto.
      rewrite (safe_float_missing _ _ Hmiss) in Hn. congruence. }
    now rewrite Hle.
  - intros [Hmiss| ->]; [|reflexivity].
    rewrite (safe_float_missing _ _ Hmiss) in Hg.
    injection Hg as <-. reflexivity.
Qed.

Lemma py_float_raises (x : pyval) (e : exn) :
  py_float x = Err e -> e = ValueError \/ e = TypeError \/ e = OverflowError.
Proof.
  destruct x as [| |z| |s| |]; simpl; try (intros H; injection H; auto).
  - discriminate.
  - destruct (float_of_Z z); intros H; try discriminate; injection H; auto.
  - discriminate.
  - destruct (float_of_string s); intros H; [discriminate|injection H; auto].
Qed.

Lemma safe_float_raises (x : pyval) (e : exn) :
  _safe_float x = Err e -> e = OverflowError.
Proof.
  unfold _safe_float.
  destruct (py_float x) as [f|e'] eqn:Hx; [discriminate|].
  destruct (py_float_raises _ _ Hx) as [-> | [-> | ->]]; try discriminate.
  intros H; injection H; auto.
Qed.

Lemma first_tank_raises py_repr tanks id (e : exn) :
  first_tank py_repr tanks id = Err e -> e = AttributeError.
Proof.
  induction tanks as [|x rest IH]; simpl; [discriminate|].
  destruct x; simpl; try (intros H; injection H; auto).
  destruct (String.eqb _ id); [discriminate|exact IH].
Qed.

Lemma tank_raises py_repr self (e : exn) :
  _tank py_repr self = Err e -> e = AttributeError.
Proof.
  unfold _tank. rewrite tanks_from_closed_form. cbn [rbind].
  apply first_tank_raises.
Qed.

(** Whatever the snapshot holds, the percent-full value raises nothing but
    the [AttributeError] of a record that is no mapping and the
    [OverflowError] of an integer beyond the floats: never
    [ZeroDivisionError]. *)
Lemma native_value_raises py_repr self (e : exn) :
  Sensor.native_value py_repr self = Err e ->
  e = AttributeError \/ e = OverflowError.
Proof.
  unfold Sensor.native_value.
  destruct (_tank py_repr self) as [[t|]|e'] eqn:Ht; cbn [rbind].
  - destruct (negb (truthy_tank (Some t))); [discriminate|].
    destruct (py_get t "sensor_gallons") as [g|e1] eqn:Hg; cbn [rbind];
      [|destruct t; simpl in Hg; try discriminate;
        injection Hg as <-; intros H; injection H; auto].
    destruct (_safe_float g) as [g'|e2] eqn:Hg'; cbn [rbind];
      [|intros H; injection H as <-; right; eapply safe_float_raises; eauto].
    destruct (py_get t "nominal") as [n|e3] eqn:Hn; cbn [rbind];
      [|destruct t; simpl in Hn; try discriminate;
        injection Hn as <-; intros H; injection H; auto].
    destruct (_safe_float n) as [n'|e4] eqn:Hn'; cbn [rbind];
      [|intros H; injection H as <-; right; eapply safe_float_raises; eauto].
    destruct (fleb (or_zero n') fzero) eqn:Hc; [discriminate|].
    unfold fdiv. rewrite (or_zero_truthy _ Hc). discriminate.
  - discriminate.
  - intros H; injection H as <-. left. eapply tank_raises; eauto.
Qed.

Lemma C10_percent_full_guarded_witness :
  Sensor.native_value repr_unused
    (entity_of (snapshot_of (PDict fields_no_capacity)) "1")
  = Ok (Some fzero).
Proof.
  refine (proj1 (proj2 (proj2
    (C10_percent_full_guarded repr_unused
       (entity_of (snapshot_of (PDict fields_no_capacity)) "1")
       fields_no_capacity None None _ _ _ _))) _).
  - reflexivity.
  - reflexivity.
  - reflexivity.
  - reflexivity.
  - left; reflexivity.
Defined.

(** C10 as stated fails on an empty record: the entity whose id is the text
    of [None] selects the record [{}], which exists in the snapshot and has
    no nominal capacity, and the value is [None], not 0.0. *)
Lemma C10_counterexample_empty_record :
  _tank repr_unused (entity_of (snapshot_of (PDict [])) "None")
    = Ok (Some (PDict []))
  /\ dict_lookup [] "nominal" = None
  /\ Sensor.native_value repr_unused (entity_of (snapshot_of (PDict [])) "None")
    = Ok None
  /\ Sensor.native_value repr_unused (entity_of (snapshot_of (PDict [])) "None")
    <> Ok (Some fzero).
Proof. repeat split; vm_compute; congruence. Qed.

(** *** The session client *)

Lemma get_tanks_list_state py_repr T st r st' :
  get_tanks_list py_repr T st = (r, st') -> st' = after tanks_request st.
Proof.
  run. intros H. repeat break_match; pair_inv; try discriminate; reflexivity.
Qed.

Lemma fetch_nonce_state T st r st' :
  _fetch_nonce T st = (r, st') -> st' = after nonce_request st.
Proof.
  run. intros H. repeat break_match; pair_inv; try discriminate; reflexivity.
Qed.

Lemma get_tanks_list_ok_json py_repr T st d st' :
  get_tanks_list py_repr T st = (Ok d, st') ->
  exists resp, T (sent st) tanks_request = inr resp /\ json resp = inr d.
Proof.
  run. intros H.
  repeat break_match; pair_inv; try discriminate; eauto.
Qed.

Lemma prefixb_spec (p s : list ascii) :
  prefixb p s = true <-> exists b, s = (p ++ b)%list.
Proof.
  revert s; induction p as [|a p IH]; intros s; simpl.
  - split; eauto.
  - destruct s as [|c s].
    + split; [discriminate|intros [b Hb]; discriminate].
    + rewrite andb_true_iff, IH. split.
      * intros [Hac [b ->]]. apply Ascii.eqb_eq in Hac as ->. eauto.
      * intros [b Hb]. injection Hb as -> ->. split; eauto.
        apply Ascii.eqb_refl.
Qed.

Lemma infixb_spec (p s : list ascii) :
  infixb p s = true <-> exists a b, s = (a ++ p ++ b)%list.
Proof.
  induction s as [|c s IH].
  - simpl. rewrite orb_false_r, prefixb_spec. split.
    + intros [b Hb]. exists [], b. exact Hb.
    + intros [a [b Hb]]. destruct a; [eauto|discriminate].
  - cbn [infixb]. rewrite orb_true_iff, prefixb_spec, IH. split.
    + intros [[b Hb]|[a [b Hb]]].
      * exists [], b. exact Hb.
      * exists (c :: a), b. simpl. now rewrite Hb.
    + intros [[|x a] [b Hb]].
      * left. eauto.
      * right. injection Hb as -> ->. eauto.
Qed.

Lemma infixb_trans (p q s : list ascii) :
  infixb p q = true -> infixb q s = true -> infixb p s = true.
Proof.
  rewrite !infixb_spec. intros [a [b ->]] [a' [b' ->]].
  exists (a' ++ a)%list, (b ++ b')%list. now rewrite <- !app_assoc.
Qed.

(** The first marker of [login] adds nothing to the second: a body with
    the quoted field name contains the bare field name. *)
Lemma quoted_marker_redundant (body : string) :
  contains ("name=" ++ dquote ++ "user_pass" ++ dquote) body
    || contains "user_pass" body
  = contains "user_pass" body.
Proof.
  set (quoted := "name=" ++ dquote ++ "user_pass" ++ dquote).
  destruct (contains quoted body) eqn:Hq; [|reflexivity].
  symmetry. unfold contains in *.
  eapply infixb_trans; [|exact Hq]. reflexivity.
Qed.

Lemma login_state T u p st st' :
  login T u p st = (Ok tt, st') ->
  exists nonce, st' = after (login_request u p nonce) (after nonce_request st).
Proof.
  run. intros H.
  repeat break_match; pair_inv; try discriminate.
  eexists; reflexivity.
Qed.

Lemma status_below_400 (s : Z) :
  s < 400 -> (s =? 401) || (s =? 403) = false /\ (400 <=? s) = false.
Proof. intros H. split; [apply orb_false_iff; split|]; lia. Qed.

(** C6: once the nonce step has returned, [login] classifies the POST
    response by status first (500 and above: [ApiError]; 401 or 403:
    [AuthError]) and otherwise by body: [AuthError] exactly when the body
    contains [user_pass], or both [Login] and [Smart Oil Gauge]; every other
    body is a success. *)
Theorem C6_login_classification
    (T : Transport) (u p : string) (st st1 : State)
    (nonce : option string) (resp : Response) :
  _fetch_nonce T st = (Ok nonce, st1) ->
  T (sent st1) (login_request u p nonce) = inr resp ->
  fst (login T u p st) =
    (if 500 <=? status resp then
       Err (ApiError (LoginFailedHTTP (status resp)))
     else if (status resp =? 401) || (status resp =? 403) then
       Err (AuthError (LoginUnauthorizedHTTP (status resp)))
     else
       match text resp with
       | inr body =>
           if contains "user_pass" body
              || (contains "Login" body && contains "Smart Oil Gauge" body)
           then Err (AuthError (if contains "user_pass" body
                                then LoginFormStillPresent
                                else LoginPageReturned))
           else Ok tt
       | inl Timeout => Err (ApiError TimeoutPostingLoginForm)
       | inl ClientFailure => Err (ApiError HTTPErrorDuringLogin)
       | inl Unexpected => Err OtherException
       end).
Proof.
  intros Hnonce HT.
  unfold login, bind. rewrite Hnonce.
  unfold try_except, login_try, bind, request. rewrite HT.
  destruct (500 <=? status resp); [reflexivity|].
  destruct ((status resp =? 401) || (status resp =? 403)); [reflexivity|].
  unfold read_text.
  destruct (text resp) as [[]|body]; try reflexivity.
  unfold ret. rewrite quoted_marker_redundant.
  destruct (contains "user_pass" body); [reflexivity|].
  cbn [orb].
  destruct (contains "Login" body && contains "Smart Oil Gauge" body);
    reflexivity.
Qed.

(** C2, as the code has it: a response of [get_tanks_list] that passes the
    status checks and whose content type is not JSON raises [AuthError]
    exactly when its body contains [ccf_nonce], [user_pass] or [Login], and
    [ApiError] for the unexpected content type otherwise. *)
Theorem C2_non_json_body
    (py_repr : pyval -> string) (T : Transport) (st : State)
    (resp : Response) (body : string) :
  T (sent st) tanks_request = inr resp ->
  status resp < 400 ->
  contains "application/json"
    (match content_type resp with Some c => c | None => "" end) = false ->
  text resp = inr body ->
  fst (get_tanks_list py_repr T st) =
    if contains "ccf_nonce" body || contains "user_pass" body
       || contains "Login" body
    then Err (AuthError SessionExpired)
    else Err (ApiError (UnexpectedContentType
                (match content_type resp with Some c => c | None => "" end))).
Proof.
  intros HT Hst Hct Hbody.
  destruct (status_below_400 _ Hst) as [H401 H400].
  unfold get_tanks_list, bind, try_except, get_tanks_list_try, bind, request.
  rewrite HT, H401, H400. unfold read_text. rewrite Hbody. unfold ret.
  rewrite Hct. cbn [negb].
  destruct (contains "ccf_nonce" body || contains "user_pass" body
            || contains "Login" body); reflexivity.
Qed.


(** C4: when a network operation of [_fetch_nonce], [login] or
    [get_tanks_list] times out, the call raises [ApiError], never
    [AuthError]. *)
Theorem C4_timeout_is_api_error
    (py_repr : pyval -> string) (T : Transport) (c : Call) (st : State) :
  times_out T c st ->
  (exists m, raised py_repr T c st = Some (ApiError m))
  /\ forall k, raised py_repr T c st <> Some (AuthError k).
Proof.
  intros Hto.
  assert (Hapi : exists m, raised py_repr T c st = Some (ApiError m)).
  { destruct Hto as [st Hb|u p st Hb|u p st nonce st1 Hn Hb|st Hb];
      unfold raised.
    - unfold _fetch_nonce, bind, try_except.
      destruct (_fetch_nonce_try T st) as [r st']. simpl in Hb. subst r.
      simpl. eauto.
    - unfold login, bind, _fetch_nonce, bind, try_except.
      destruct (_fetch_nonce_try T st) as [r st']. simpl in Hb. subst r.
      simpl. eauto.
    - unfold login, bind. rewrite Hn. unfold try_except.
      destruct (login_try T u p nonce st1) as [r st']. simpl in Hb. subst r.
      simpl. eauto.
    - unfold get_tanks_list, bind, try_except.
      destruct (get_tanks_list_try T st) as [r st']. simpl in Hb. subst r.
      simpl. eauto. }
  split; [exact Hapi|].
  destruct Hapi as [m Hm]. intros k. rewrite Hm. discriminate.
Qed.

(** Where the timeouts of C4 come from: the transport times out on the
    request, or on reading the body of a response that passed the status
    checks. *)
Lemma transport_timeout_fetch_nonce T st :
  T (sent st) nonce_request = inl Timeout
  \/ (exists resp, T (sent st) nonce_request = inr resp
                   /\ text resp = inl Timeout) ->
  fst (_fetch_nonce_try T st) = Err TimeoutError.
Proof.
  unfold _fetch_nonce_try, bind, request, read_text.
  intros [H|[resp [H Ht]]]; rewrite H; [reflexivity|].
  rewrite Ht. reflexivity.
Qed.

Lemma transport_timeout_login T u p nonce st :
  T (sent st) (login_request u p nonce) = inl Timeout
  \/ (exists resp, T (sent st) (login_request u p nonce) = inr resp
                   /\ status resp < 500 /\ status resp <> 401
                   /\ status resp <> 403 /\ text resp = inl Timeout) ->
  fst (login_try T u p nonce st) = Err TimeoutError.
Proof.
  unfold login_try, bind, request, read_text.
  intros [H|[resp [H [H5 [H1 [H3 Ht]]]]]]; rewrite H; [reflexivity|].
  replace (500 <=? status resp) with false by lia.
  replace ((status resp =? 401) || (status resp =? 403)) with false
    by (symmetry; apply orb_false_iff; split; lia).
  rewrite Ht. reflexivity.
Qed.

Lemma transport_timeout_tanks T st :
  T (sent st) tanks_request = inl Timeout
  \/ (exists resp, T (sent st) tanks_request = inr resp
                   /\ status resp < 400 /\ text resp = inl Timeout) ->
  fst (get_tanks_list_try T st) = Err TimeoutError.
Proof.
  unfold get_tanks_list_try, bind, request, read_text.
  intros [H|[resp [H [H4 Ht]]]]; rewrite H; [reflexivity|].
  destruct (status_below_400 _ H4) as [-> ->].
  rewrite Ht. reflexivity.
Qed.

(** *** The coordinator *)

(** C7: whenever a [get_tanks_list] call of a refresh succeeds, at once or
    on the retry, [_async_update_data] returns its value as it is, and that
    value is the parse of the response body. *)
Theorem C7_snapshot_verbatim
    (py_repr : pyval -> string) (T : Transport)
    (self : SmartOilGaugeDataUpdateCoordinator)
    (st st0 st1 : State) (d : pyval) :
  fetch_attempt py_repr T self st st0 ->
  get_tanks_list py_repr T st0 = (Ok d, st1) ->
  _async_update_data py_repr T self st = (Ok d, st1)
  /\ exists resp, T (sent st0) tanks_request = inr resp /\ json resp = inr d.
Proof.
  intros Hat Hget. split; [|eapply get_tanks_list_ok_json; eauto].
  destruct Hat as [|k sa sb Hfirst Hlogin].
  - unfold _async_update_data, try_except. now rewrite Hget.
  - unfold _async_update_data, try_except. rewrite Hfirst.
    unfold relogin_and_retry, try_except, bind. now rewrite Hlogin, Hget.
Qed.

Lemma C7_snapshot_verbatim_witness :
  _async_update_data repr_unused retry_delivers account fresh
  = (Ok one_tank,
     after tanks_request
       (after (login_request (_username account) (_password account) (Some "n0"))
          (after nonce_request (after tanks_request fresh)))).
Proof.
  refine (proj1 (C7_snapshot_verbatim repr_unused retry_delivers account fresh
    (after (login_request (_username account) (_password account) (Some "n0"))
       (after nonce_request (after tanks_request fresh)))
    _ one_tank _ _)).
  - eapply retry_attempt; reflexivity.
  - reflexivity.
Defined.

(** C3: when the initial fetch raises [AuthError] and the re-login raises
    [AuthError] too, the refresh raises [ConfigEntryAuthFailed], which is not
    an [UpdateFailed], and the cached snapshot is the one from before. *)
Theorem C3_relogin_rejected
    (py_repr : pyval -> string) (T : Transport)
    (self : SmartOilGaugeDataUpdateCoordinator)
    (st st1 st2 : State) (k k' : AuthErrorMsg) :
  get_tanks_list py_repr T st = (Err (AuthError k), st1) ->
  login T (_username self) (_password self) st1 = (Err (AuthError k'), st2) ->
  _async_update_data py_repr T self st = (Err ConfigEntryAuthFailed, st2)
  /\ (forall m, ConfigEntryAuthFailed <> UpdateFailed m)
  /\ data st2 = data st.
Proof.
  intros Hfirst Hlogin. repeat split.
  - unfold _async_update_data, try_except. rewrite Hfirst.
    unfold relogin_and_retry, try_except, bind. now rewrite Hlogin.
  - discriminate.
  - apply get_tanks_list_state in Hfirst. subst st1.
    revert Hlogin. run. intros H.
    repeat break_match; pair_inv; try discriminate; reflexivity.
Qed.

Lemma C3_relogin_rejected_witness :
  fst (_async_update_data repr_unused bad_credentials account (cached one_tank))
    = Err ConfigEntryAuthFailed
  /\ data (snd (_async_update_data repr_unused bad_credentials account
                   (cached one_tank))) = one_tank.
Proof.
  destruct (C3_relogin_rejected repr_unused bad_credentials account
    (cached one_tank)
    (after tanks_request (cached one_tank))
    (after (login_request (_username account) (_password account) (Some "n0"))
       (after nonce_request (after tanks_request (cached one_tank))))
    (APIUnauthorizedStatus (PInt 401)) LoginFormStillPresent)
    as [Hres [_ Hdata]].
  - reflexivity.
  - reflexivity.
  - rewrite Hres. split; [reflexivity|exact Hdata].
Defined.

(** C1, as the code has it: after an [AuthError] on the initial fetch and a
    successful re-login, the one retry that fails with [AuthError] raises
    [ConfigEntryAuthFailed] and one that fails with anything else raises
    [UpdateFailed]; either way the refresh ends there, with two fetches and
    one login sent and the cached snapshot as before. *)
Theorem C1_retry_failure
    (py_repr : pyval -> string) (T : Transport)
    (self : SmartOilGaugeDataUpdateCoordinator)
    (st st1 st2 st3 : State) (k : AuthErrorMsg) (e : exn) :
  get_tanks_list py_repr T st = (Err (AuthError k), st1) ->
  login T (_username self) (_password self) st1 = (Ok tt, st2) ->
  get_tanks_list py_repr T st2 = (Err e, st3) ->
  _async_update_data py_repr T self st =
    (Err (match e with
          | AuthError _ => ConfigEntryAuthFailed
          | _ => UpdateFailed ReLoginFailed
          end), st3)
  /\ (exists nonce,
        sent st3 = tanks_request
                   :: login_request (_username self) (_password self) nonce
                   :: nonce_request :: tanks_request :: sent st)
  /\ data st3 = data st.
Proof.
  intros Hfirst Hlogin Hretry. split.
  - unfold _async_update_data, try_except. rewrite Hfirst.
    unfold relogin_and_retry, try_except, bind. rewrite Hlogin, Hretry.
    destruct e; reflexivity.
  - apply get_tanks_list_state in Hfirst, Hretry.
    apply login_state in Hlogin as [nonce Hlogin]. subst.
    split; [exists nonce|]; reflexivity.
Qed.

Lemma C1_retry_failure_witness :
  fst (_async_update_data repr_unused retry_times_out account fresh)
  = Err (UpdateFailed ReLoginFailed).
Proof.
  refine (f_equal fst (proj1 (C1_retry_failure repr_unused retry_times_out
    account fresh _ _ _ (APIUnauthorizedStatus (PInt 401))
    (ApiError TimeoutTalking) _ _ _))).
  - reflexivity.
  - reflexivity.
  - reflexivity.
Defined.

(** C1 as stated fails when the retry raises [AuthError]: the session
    expires, the login is accepted, the retried fetch is refused again, and
    the refresh raises [ConfigEntryAuthFailed], not [UpdateFailed]. *)
Lemma C1_counterexample_retry_unauthorized :
  let st1 := after tanks_request fresh in
  let st2 := after (login_request (_username account) (_password account)
                      (Some "n0")) (after nonce_request st1) in
  get_tanks_list repr_unused still_refused fresh
    = (Err (AuthError (APIUnauthorizedStatus (PInt 401))), st1)
  /\ login still_refused (_username account) (_password account) st1
    = (Ok tt, st2)
  /\ fst (get_tanks_list repr_unused still_refused st2)
    = Err (AuthError (APIUnauthorizedStatus (PInt 401)))
  /\ fst (_async_update_data repr_unused still_refused account fresh)
    = Err ConfigEntryAuthFailed
  /\ forall m, fst (_async_update_data repr_unused still_refused account fresh)
              <> Err (UpdateFailed m).
Proof. repeat split; vm_compute; congruence. Qed.

(** *** Instances of the client theorems *)

Lemma C6_login_classification_witness :
  fst (login login_rejected "user@example.com" "secret" fresh)
  = Err (AuthError LoginFormStillPresent).
Proof.
  exact (C6_login_classification login_rejected "user@example.com" "secret"
           fresh (after nonce_request fresh) (Some "n0") (html 200 login_page)
           eq_refl eq_refl).
Defined.

Lemma C2_non_json_body_witness :
  fst (get_tanks_list repr_unused (html_instead login_page) fresh)
  = Err (AuthError SessionExpired).
Proof.
  refine (C2_non_json_body repr_unused (html_instead login_page) fresh
            (html 200 login_page) login_page _ _ _ _).
  - reflexivity.
  - reflexivity.
  - reflexivity.
  - reflexivity.
Defined.

(** C2 as stated fails on a body with [Login] alone: it has neither
    [user_pass] nor the product name, and [get_tanks_list] raises
    [AuthError] where the claim has [ApiError]. *)
Lemma C2_counterexample_login_word :
  contains "user_pass" login_link = false
  /\ contains "Login" login_link && contains "Smart Oil Gauge" login_link = false
  /\ fst (get_tanks_list repr_unused (html_instead login_link) fresh)
     = Err (AuthError SessionExpired)
  /\ forall m, fst (get_tanks_list repr_unused (html_instead login_link) fresh)
              <> Err (ApiError m).
Proof. repeat split; vm_compute; congruence. Qed.



Lemma C4_timeout_is_api_error_witness :
  exists m,
    raised repr_unused always_timeout (CallLogin "user@example.com" "secret")
      fresh = Some (ApiError m).
Proof.
  refine (proj1 (C4_timeout_is_api_error repr_unused always_timeout
    (CallLogin "user@example.com" "secret") fresh _)).
  apply timeout_login_page. reflexivity.
Defined.

(** *** More on the session client *)

(** X1: whatever the transport does, a call of the client raises
    [AuthError], [ApiError] or an exception that is neither a timeout nor a
    client error: no raw [asyncio.TimeoutError] or [aiohttp.ClientError]
    leaves [_fetch_nonce], [login] or [get_tanks_list]. *)
Theorem X1_client_exceptions
    (py_repr : pyval -> string) (T : Transport) (c : Call) (st : State)
    (e : exn) :
  raised py_repr T c st = Some e ->
  (exists k, e = AuthError k) \/ (exists m, e = ApiError m)
  \/ e = OtherException.
Proof.
  destruct c; unfold raised, error_of; run; intros H;
    repeat break_match; break_net; simpl in *; pair_inv;
    try discriminate; inversion H; subst; eauto.
Qed.

Lemma X1_client_exceptions_witness :
  (exists k, ApiError TimeoutTalking = AuthError k)
  \/ (exists m, ApiError TimeoutTalking = ApiError m)
  \/ ApiError TimeoutTalking = OtherException.
Proof.
  exact (X1_client_exceptions repr_unused always_timeout CallGetTanksList
           fresh (ApiError TimeoutTalking) eq_refl).
Defined.

(** X2: in [get_tanks_list] the HTTP status is judged before anything else
    of the response: 401 and 403 raise [AuthError], every other status from
    400 on raises [ApiError], whatever the content type and the body. *)
Theorem X2_http_status_first
    (py_repr : pyval -> string) (T : Transport) (st : State)
    (resp : Response) :
  T (sent st) tanks_request = inr resp ->
  400 <= status resp ->
  get_tanks_list py_repr T st =
    (Err (if (status resp =? 401) || (status resp =? 403)
          then AuthError (TankListUnauthorizedHTTP (status resp))
          else ApiError (TankListFailedHTTP (status resp))),
     after tanks_request st).
Proof.
  intros HT Hst.
  unfold get_tanks_list, bind, try_except, get_tanks_list_try, bind, request.
  rewrite HT.
  destruct ((status resp =? 401) || (status resp =? 403)); [reflexivity|].
  replace (400 <=? status resp) with true by lia. reflexivity.
Qed.

Lemma X2_http_status_first_witness :
  fst (get_tanks_list repr_unused
         (scripted [inr (json_reply 503 "" one_tank)]) fresh)
  = Err (ApiError (TankListFailedHTTP 503)).
Proof.
  refine (f_equal fst (X2_http_status_first repr_unused
    (scripted [inr (json_reply 503 "" one_tank)]) fresh
    (json_reply 503 "" one_tank) _ _)).
  - reflexivity.
  - simpl; lia.
Defined.

(** When the body of a JSON response cannot be decoded, whatever
    exception the decoder raises, [get_tanks_list] raises [ApiError]. *)
Lemma decode_failure_is_api_error
    (py_repr : pyval -> string) (T : Transport) (st : State)
    (resp : Response) (body : string) (e : exn) :
  T (sent st) tanks_request = inr resp ->
  status resp < 400 ->
  contains "application/json"
    (match content_type resp with Some c => c | None => "" end) = true ->
  text resp = inr body ->
  json resp = inl e ->
  get_tanks_list py_repr T st
  = (Err (ApiError FailedToDecodeJSON), after tanks_request st).
Proof.
  intros HT Hst Hct Hbody Hjson.
  destruct (status_below_400 _ Hst) as [H401 H400].
  unfold get_tanks_list, bind, try_except, get_tanks_list_try, bind, request.
  rewrite HT, H401, H400. unfold read_text. rewrite Hbody. unfold ret.
  rewrite Hct. cbn [negb]. unfold try_except, read_json. rewrite Hjson.
  reflexivity.
Qed.

Lemma decode_failure_example :
  fst (get_tanks_list repr_unused
         (scripted [inr {| status := 200;
                           content_type := Some "application/json";
                           text := inr "<html>"; json := inl TimeoutError |}])
         fresh)
  = Err (ApiError FailedToDecodeJSON).
Proof.
  refine (f_equal fst (decode_failure_is_api_error repr_unused _ fresh
    {| status := 200; content_type := Some "application/json";
       text := inr "<html>"; json := inl TimeoutError |}
    "<html>" TimeoutError _ _ _ _ _)); reflexivity.
Defined.

(** X3: a decoded mapping without an unauthorized [Status] is returned when
    it has no [result] or a [result] that is [ok] in any letter case, and
    raises [ApiError] for any other text in [result]. *)
Theorem X3_result_field
    (py_repr : pyval -> string) (T : Transport) (st : State)
    (resp : Response) (body : string) (d : dict) :
  T (sent st) tanks_request = inr resp ->
  status resp < 400 ->
  contains "application/json"
    (match content_type resp with Some c => c | None => "" end) = true ->
  text resp = inr body ->
  json resp = inr (PDict d) ->
  py_eq_int (dict_get d "Status") 401 = false ->
  py_eq_int (dict_get d "Status") 403 = false ->
  (dict_get d "result" = PNone ->
   fst (get_tanks_list py_repr T st) = Ok (PDict d))
  /\ (forall s, dict_get d "result" = PStr s ->
      fst (get_tanks_list py_repr T st) =
        if String.eqb (lower s) "ok" then Ok (PDict d)
        else Err (ApiError (APIResultError (PStr s)))).
Proof.
  intros HT Hst Hct Hbody Hjson H1 H3.
  destruct (status_below_400 _ Hst) as [H401 H400].
  assert (Hrun : fst (get_tanks_list py_repr T st) =
    if negb (is_none (dict_get d "result"))
       && negb (String.eqb (lower (py_str py_repr (dict_get d "result"))) "ok")
    then Err (ApiError (APIResultError (dict_get d "result")))
    else Ok (PDict d)).
  { unfold get_tanks_list, bind, try_except, get_tanks_list_try, bind, request.
    rewrite HT, H401, H400. unfold read_text. rewrite Hbody. unfold ret.
    rewrite Hct. cbn [negb]. unfold try_except, read_json. rewrite Hjson.
    unfold ret. cbv beta iota zeta. rewrite H1, H3. cbn [orb].
    destruct (negb (is_none (dict_get d "result")) && _); reflexivity. }
  split.
  - intros Hr. rewrite Hrun, Hr. reflexivity.
  - intros s Hr. rewrite Hrun, Hr. cbn [is_none negb andb py_str].
    destruct (String.eqb (lower s) "ok"); reflexivity.
Qed.

Lemma X3_result_field_witness :
  fst (get_tanks_list repr_unused
         (scripted [inr (json_reply 200 ""
                           (PDict [("result", PStr "Error")]))]) fresh)
  = Err (ApiError (APIResultError (PStr "Error"))).
Proof.
  refine (proj2 (X3_result_field repr_unused _ fresh
    (json_reply 200 "" (PDict [("result", PStr "Error")])) ""
    [("result", PStr "Error")] _ _ _ _ _ _ _) "Error" _); reflexivity.
Defined.

(** X4: when the login page cannot be fetched, [login] fails with the
    exception of that step and sends nothing else: the credentials are not
    posted. *)
Theorem X4_no_post_without_page
    (T : Transport) (u p : string) (st : State) (e : exn) :
  fst (_fetch_nonce T st) = Err e ->
  login T u p st = (Err e, after nonce_request st).
Proof.
  intros H. unfold login, bind.
  destruct (_fetch_nonce T st) as [r st'] eqn:Hn.
  apply fetch_nonce_state in Hn as Hst. simpl in H. subst. reflexivity.
Qed.

Lemma X4_no_post_without_page_witness :
  sent (snd (login always_timeout "user@example.com" "secret" fresh))
  = [nonce_request].
Proof.
  rewrite (X4_no_post_without_page always_timeout "user@example.com" "secret"
             fresh (ApiError TimeoutFetchingLoginPage) eq_refl).
  reflexivity.
Defined.

(** *** The nonce pattern *)

Lemma list_ascii_app (a b : string) :
  list_ascii_of_string (a ++ b) = (list_ascii_of_string a ++ list_ascii_of_string b)%list.
Proof. induction a as [|c a IH]; simpl; [reflexivity|now rewrite IH]. Qed.

Lemma match_ci_split (lit l r : list ascii) :
  match_ci lit l = Some r ->
  exists v, l = (v ++ r)%list /\ map lower_ascii v = lit.
Proof.
  revert l; induction lit as [|a lit IH]; intros l; simpl.
  - intros H; injection H as <-. exists []. auto.
  - destruct l as [|b l]; [discriminate|].
    destruct (Ascii.eqb a (lower_ascii b)) eqn:Hab; [|discriminate].
    intros H. apply IH in H as [v [-> Hv]].
    apply Ascii.eqb_eq in Hab. exists (b :: v). simpl. split; congruence.
Qed.

Lemma expect_quote_split (l r : list ascii) :
  expect_quote l = Some r -> exists q, l = q :: r /\ is_quote q = true.
Proof.
  destruct l as [|c l]; simpl; [discriminate|].
  destruct (is_quote c) eqn:Hq; [|discriminate].
  intros H; injection H as <-. eauto.
Qed.

Lemma skip_spaces_split (l : list ascii) :
  exists sp, l = (sp ++ skip_spaces l)%list /\ forallb re_space sp = true.
Proof.
  induction l as [|c l [sp [Hl Hsp]]]; cbn [skip_spaces].
  - exists []. auto.
  - destruct (re_space c) eqn:Hc.
    + exists (c :: sp). cbn [app forallb]. rewrite Hc, Hsp.
      split; [f_equal; exact Hl|reflexivity].
    + exists []. auto.
Qed.

Lemma expect_spaces_split (l r : list ascii) :
  expect_spaces l = Some r ->
  exists sp, l = (sp ++ r)%list /\ sp <> [] /\ forallb re_space sp = true.
Proof.
  destruct l as [|c l]; cbn [expect_spaces]; [discriminate|].
  destruct (re_space c) eqn:Hc; [|discriminate].
  intros H; injection H as <-.
  destruct (skip_spaces_split l) as [sp [Hl Hsp]].
  exists (c :: sp). cbn [app forallb]. rewrite Hc, Hsp.
  repeat split; [f_equal; exact Hl|discriminate].
Qed.

Lemma span_nonquote_split (l g r : list ascii) :
  span_nonquote l = (g, r) ->
  l = (g ++ r)%list /\ forallb (fun c => negb (is_quote c)) g = true.
Proof.
  revert g r; induction l as [|c l IH]; intros g r; simpl.
  - intros H; injection H as <- <-. auto.
  - destruct (is_quote c) eqn:Hc.
    + intros H; injection H as <- <-. auto.
    + destruct (span_nonquote l) as [g' r'].
      intros H; injection H as <- <-.
      destruct (IH g' r' eq_refl) as [-> Hg]. simpl. rewrite Hc, Hg. auto.
Qed.

(** What a successful match at the head of [l] looks like. *)
Lemma nonce_match_shape (l : list ascii) (g : string) :
  nonce_match l = Some g ->
  g <> "" /\
  forallb (fun c => negb (is_quote c)) (list_ascii_of_string g) = true /\
  exists a v q1 q2 b,
    l = (a ++ v ++ q1 :: list_ascii_of_string g ++ q2 :: b)%list
    /\ map lower_ascii v = list_ascii_of_string "value="
    /\ is_quote q1 = true /\ is_quote q2 = true.
Proof.
  unfold nonce_match, obind. intros H.
  destruct (match_ci _ l) as [l1|] eqn:H1; [|discriminate].
  destruct (expect_quote l1) as [l2|] eqn:H2; [|discriminate].
  destruct (match_ci _ l2) as [l3|] eqn:H3; [|discriminate].
  destruct (expect_quote l3) as [l4|] eqn:H4; [|discriminate].
  destruct (expect_spaces l4) as [l5|] eqn:H5; [|discriminate].
  destruct (match_ci _ l5) as [l6|] eqn:H6; [|discriminate].
  destruct (expect_quote l6) as [l7|] eqn:H7; [|discriminate].
  destruct (span_nonquote l7) as [g' l8] eqn:H8.
  destruct g' as [|c g']; [discriminate|].
  destruct (expect_quote l8) as [l9|] eqn:H9; [|discriminate].
  injection H as Hg0.
  apply (f_equal list_ascii_of_string) in Hg0.
  cbn [list_ascii_of_string string_of_list_ascii] in Hg0.
  rewrite list_ascii_of_string_of_list_ascii in Hg0.
  apply match_ci_split in H1 as [v1 [-> _]].
  apply expect_quote_split in H2 as [q [-> _]].
  apply match_ci_split in H3 as [v3 [-> _]].
  apply expect_quote_split in H4 as [q' [-> _]].
  apply expect_spaces_split in H5 as [sp [-> _]].
  apply match_ci_split in H6 as [v [-> Hv]].
  apply expect_quote_split in H7 as [q1 [-> Hq1]].
  apply span_nonquote_split in H8 as [-> Hg].
  apply expect_quote_split in H9 as [q2 [-> Hq2]].
  rewrite <- Hg0.
  split; [intros ->; discriminate|]. split; [exact Hg|].
  exists (v1 ++ q :: v3 ++ q' :: sp)%list, v, q1, q2, l9.
  repeat split; auto.
  repeat (rewrite <- ?app_assoc; simpl). reflexivity.
Qed.

Lemma nonce_search_shape (page g : string) :
  _NONCE_RE_search page = Some g ->
  g <> "" /\
  forallb (fun c => negb (is_quote c)) (list_ascii_of_string g) = true /\
  exists a v q1 q2 b,
    list_ascii_of_string page
      = (a ++ v ++ q1 :: list_ascii_of_string g ++ q2 :: b)%list
    /\ map lower_ascii v = list_ascii_of_string "value="
    /\ is_quote q1 = true /\ is_quote q2 = true.
Proof.
  unfold _NONCE_RE_search.
  induction (list_ascii_of_string page) as [|c l IH]; cbn [nonce_search].
  - destruct (nonce_match []) eqn:Hm; [|discriminate].
    intros H; injection H as ->. now apply nonce_match_shape.
  - destruct (nonce_match (c :: l)) eqn:Hm.
    + intros H; injection H as ->. now apply nonce_match_shape.
    + intros H. destruct (IH H) as [Hne [Hq [a [v [q1 [q2 [b [Hl Hrest]]]]]]]].
      split; [exact Hne|]. split; [exact Hq|].
      exists (c :: a), v, q1, q2, b. split; [|exact Hrest].
      simpl. now rewrite Hl.
Qed.

(** X5: a nonce that [_NONCE_RE] extracts is not empty, holds no quote
    character, and stands in the page between two quote characters, right
    after [value=] in some letter case. *)
Theorem X5_nonce_sound (page g : string) :
  _NONCE_RE_search page = Some g ->
  g <> "" /\
  forallb (fun c => negb (is_quote c)) (list_ascii_of_string g) = true /\
  exists a v q1 q2 b,
    list_ascii_of_string page
      = (a ++ v ++ q1 :: list_ascii_of_string g ++ q2 :: b)%list
    /\ map lower_ascii v = list_ascii_of_string "value="
    /\ is_quote q1 = true /\ is_quote q2 = true.
Proof. apply nonce_search_shape. Qed.

Lemma X5_nonce_sound_witness : "n0" <> "".
Proof.
  exact (proj1 (X5_nonce_sound login_page "n0" eq_refl)).
Defined.

Lemma skip_spaces_app (sp l : list ascii) :
  forallb re_space sp = true ->
  skip_spaces (sp ++ l) = skip_spaces l.
Proof.
  induction sp as [|c sp IH]; simpl; [reflexivity|].
  destruct (re_space c); [exact IH|discriminate].
Qed.

Lemma span_nonquote_app (g : list ascii) (q : ascii) (r : list ascii) :
  forallb (fun c => negb (is_quote c)) g = true ->
  is_quote q = true ->
  span_nonquote (g ++ q :: r) = (g, q :: r).
Proof.
  intros Hg Hq. induction g as [|c g IH]; simpl.
  - now rewrite Hq.
  - simpl in Hg. apply andb_true_iff in Hg as [Hc Hg].
    apply negb_true_iff in Hc. rewrite Hc, (IH Hg). reflexivity.
Qed.

Lemma nonce_search_suffix (a l : list ascii) :
  nonce_search l <> None -> nonce_search (a ++ l) <> None.
Proof.
  intros H. induction a as [|c a IH]; [exact H|].
  cbn [app nonce_search]. destruct (nonce_match (c :: a ++ l)); [discriminate|].
  exact IH.
Qed.

Lemma match_ci_lit (lit r : list ascii) :
  map lower_ascii lit = lit -> match_ci lit (lit ++ r) = Some r.
Proof.
  induction lit as [|a lit IH]; intros H; [reflexivity|].
  injection H as Ha Hlit. cbn [app match_ci].
  rewrite Ha, Ascii.eqb_refl. exact (IH Hlit).
Qed.

Lemma expect_spaces_app (sp l : list ascii) :
  sp <> [] -> forallb re_space sp = true -> skip_spaces l = l ->
  expect_spaces (sp ++ l) = Some l.
Proof.
  intros Hsp Hall Hl. destruct sp as [|c sp]; [congruence|].
  cbn [app expect_spaces]. cbn [forallb] in Hall.
  apply andb_true_iff in Hall as [Hc Hall].
  now rewrite Hc, (skip_spaces_app _ _ Hall), Hl.
Qed.

Lemma hidden_nonce_field_list (q : ascii) (sp n post : string) :
  list_ascii_of_string (hidden_nonce_field q sp n ++ post) =
  (list_ascii_of_string "name=" ++ q ::
   list_ascii_of_string "ccf_nonce" ++ q ::
   list_ascii_of_string sp ++ list_ascii_of_string "value=" ++ q ::
   list_ascii_of_string n ++ q :: list_ascii_of_string post)%list.
Proof.
  unfold hidden_nonce_field.
  repeat (rewrite ?list_ascii_app; cbn [list_ascii_of_string app]).
  repeat (rewrite <- ?app_assoc; cbn [app]). reflexivity.
Qed.

Lemma nonempty_list (s : string) : s <> "" -> list_ascii_of_string s <> [].
Proof.
  intros Hs Hl. apply Hs.
  rewrite <- (string_of_list_ascii_of_string s). now rewrite Hl.
Qed.

(** X6: a page that holds the hidden field, with either quote character and
    any white space before [value=], yields a nonce; when the page starts
    with the field, the nonce is the field's value. *)
Theorem X6_nonce_found
    (q : ascii) (sp n pre post : string) :
  is_quote q = true ->
  sp <> "" ->
  forallb re_space (list_ascii_of_string sp) = true ->
  n <> "" ->
  forallb (fun c => negb (is_quote c)) (list_ascii_of_string n) = true ->
  _NONCE_RE_search (hidden_nonce_field q sp n ++ post) = Some n
  /\ _NONCE_RE_search (pre ++ hidden_nonce_field q sp n ++ post) <> None.
Proof.
  intros Hq Hsp Hspaces Hn Hfree.
  assert (Hhead : nonce_match
            (list_ascii_of_string (hidden_nonce_field q sp n ++ post))
          = Some n).
  { rewrite hidden_nonce_field_list. unfold nonce_match, obind.
    rewrite match_ci_lit by reflexivity. cbn [expect_quote]. rewrite Hq.
    rewrite match_ci_lit by reflexivity. cbn [expect_quote]. rewrite Hq.
    rewrite expect_spaces_app;
      [|now apply nonempty_list|exact Hspaces|reflexivity].
    rewrite match_ci_lit by reflexivity. cbn [expect_quote]. rewrite Hq.
    rewrite (span_nonquote_app _ q _ Hfree Hq).
    destruct (list_ascii_of_string n) as [|c0 n'] eqn:Hnlist.
    { exfalso. now apply (nonempty_list n). }
    cbn [expect_quote]. rewrite Hq.
    rewrite <- Hnlist, string_of_list_ascii_of_string. reflexivity. }
  assert (Hfound : _NONCE_RE_search (hidden_nonce_field q sp n ++ post)
                   = Some n).
  { unfold _NONCE_RE_search.
    destruct (list_ascii_of_string (hidden_nonce_field q sp n ++ post));
      cbn [nonce_search]; now rewrite Hhead. }
  split; [exact Hfound|].
  unfold _NONCE_RE_search in *. rewrite list_ascii_app.
  apply nonce_search_suffix. rewrite Hfound. discriminate.
Qed.

Lemma X6_nonce_found_witness :
  _NONCE_RE_search (hidden_nonce_field "039" " " "8f3a" ++ "></form>")
  = Some "8f3a".
Proof.
  refine (proj1 (X6_nonce_found "039" " " "8f3a" "" "></form>" _ _ _ _ _)).
  - reflexivity.
  - discriminate.
  - reflexivity.
  - discriminate.
  - reflexivity.
Defined.

(** X7: once the login page has been read, [login] sends exactly two
    requests, the GET of the page and one POST whose form holds the user
    name, the password and, when the page has one, the nonce; without a
    nonce the POST goes out with the two credentials alone. *)
Theorem X7_login_traffic
    (T : Transport) (u p : string) (st : State)
    (resp : Response) (page : string) :
  T (sent st) nonce_request = inr resp ->
  text resp = inr page ->
  sent (snd (login T u p st))
    = login_request u p (_NONCE_RE_search page) :: nonce_request :: sent st
  /\ payload (login_request u p (_NONCE_RE_search page))
    = FormFields ([(USER_FIELD, u); (PASS_FIELD, p)] ++
                  match _NONCE_RE_search page with
                  | Some n => [("ccf_nonce", n)]
                  | None => []
                  end)%list.
Proof.
  intros HT Hpage. split.
  - run. rewrite HT, Hpage. cbv beta iota zeta.
    repeat break_match; break_net; simpl in *; pair_inv; try discriminate;
      reflexivity.
  - unfold login_request. cbn [payload].
    destruct (_NONCE_RE_search page) as [n|] eqn:Hn; [|reflexivity].
    apply nonce_search_shape in Hn as [Hne _].
    destruct (String.eqb_spec n ""); [contradiction|reflexivity].
Qed.

Lemma X7_login_traffic_witness :
  sent (snd (login login_rejected "user@example.com" "secret" fresh))
  = [login_request "user@example.com" "secret" (Some "n0"); nonce_request].
Proof.
  exact (proj1 (X7_login_traffic login_rejected "user@example.com" "secret"
                  fresh (html 200 login_page) login_page eq_refl eq_refl)).
Defined.

(** *** More on the coordinator *)

Lemma login_state_any T u p st r st' :
  login T u p st = (r, st') ->
  st' = after nonce_request st
  \/ exists nonce,
       st' = after (login_request u p nonce) (after nonce_request st).
Proof.
  run. intros H.
  repeat break_match; break_net; simpl in *; pair_inv; try discriminate;
    solve [left; reflexivity | right; eexists; reflexivity].
Qed.

(** X8: whatever the transport does, a refresh that fails raises one of the
    two signals of the host: [ConfigEntryAuthFailed] or [UpdateFailed]. *)
Theorem X8_refresh_signals
    (py_repr : pyval -> string) (T : Transport)
    (self : SmartOilGaugeDataUpdateCoordinator) (st : State) (e : exn) :
  fst (_async_update_data py_repr T self st) = Err e ->
  e = ConfigEntryAuthFailed \/ exists m, e = UpdateFailed m.
Proof.
  unfold _async_update_data, relogin_and_retry, try_except, bind, raise.
  destruct (get_tanks_list py_repr T st) as [[d|e1] st1]; [discriminate|].
  destruct e1;
    try (simpl; intros H; injection H as <-; eauto).
  destruct (login T (_username self) (_password self) st1) as [[[]|e2] st2].
  - destruct (get_tanks_list py_repr T st2) as [[d|e3] st3];
      [discriminate|].
    destruct e3; simpl; intros H; injection H as <-; eauto.
  - destruct e2; simpl; intros H; injection H as <-; eauto.
Qed.

Lemma X8_refresh_signals_witness :
  UpdateFailed ApiFailure = ConfigEntryAuthFailed
  \/ exists m, UpdateFailed ApiFailure = UpdateFailed m.
Proof.
  exact (X8_refresh_signals repr_unused always_timeout account fresh
           (UpdateFailed ApiFailure) eq_refl).
Defined.




(** X10: when the initial fetch fails with anything but [AuthError], the
    refresh raises [UpdateFailed] at once: no login is attempted and the
    fetch is the only request sent. *)
Theorem X10_no_login_on_transient
    (py_repr : pyval -> string) (T : Transport)
    (self : SmartOilGaugeDataUpdateCoordinator) (st st1 : State) (e : exn) :
  get_tanks_list py_repr T st = (Err e, st1) ->
  (forall k, e <> AuthError k) ->
  _async_update_data py_repr T self st =
    (Err (UpdateFailed (match e with
                        | ApiError _ => ApiFailure
                        | _ => UnexpectedError
                        end)), st1)
  /\ sent st1 = tanks_request :: sent st.
Proof.
  intros H1 Hne. split.
  - unfold _async_update_data, try_except, raise. rewrite H1.
    destruct e; try reflexivity. exfalso. eapply Hne. reflexivity.
  - apply get_tanks_list_state in H1. now subst.
Qed.

Lemma X10_no_login_on_transient_witness :
  _async_update_data repr_unused always_timeout account fresh
  = (Err (UpdateFailed ApiFailure), after tanks_request fresh).
Proof.
  refine (proj1 (X10_no_login_on_transient repr_unused always_timeout account
    fresh (after tanks_request fresh) (ApiError TimeoutTalking) eq_refl _)).
  discriminate.
Defined.

(** X11: when the re-login after an [AuthError] fails with anything but
    [AuthError], the refresh raises [UpdateFailed] and the fetch is not
    retried. *)
Theorem X11_relogin_transient
    (py_repr : pyval -> string) (T : Transport)
    (self : SmartOilGaugeDataUpdateCoordinator) (st st1 st2 : State)
    (k : AuthErrorMsg) (e : exn) :
  get_tanks_list py_repr T st = (Err (AuthError k), st1) ->
  login T (_username self) (_password self) st1 = (Err e, st2) ->
  (forall k', e <> AuthError k') ->
  _async_update_data py_repr T self st = (Err (UpdateFailed ReLoginFailed), st2)
  /\ (sent st2 = nonce_request :: tanks_request :: sent st
      \/ exists n,
           sent st2 = login_request (_username self) (_password self) n
                      :: nonce_request :: tanks_request :: sent st).
Proof.
  intros H1 H2 Hne. split.
  - unfold _async_update_data, relogin_and_retry, try_except, bind, raise.
    rewrite H1, H2. destruct e; try reflexivity.
    exfalso. eapply Hne. reflexivity.
  - apply get_tanks_list_state in H1. subst st1.
    apply login_state_any in H2 as [-> | [n ->]]; [left|right; exists n];
      reflexivity.
Qed.

Lemma X11_relogin_transient_witness :
  fst (_async_update_data repr_unused login_unreachable account fresh)
  = Err (UpdateFailed ReLoginFailed).
Proof.
  refine (f_equal fst (proj1 (X11_relogin_transient repr_unused
    login_unreachable account fresh (after tanks_request fresh)
    (after nonce_request (after tanks_request fresh))
    (APIUnauthorizedStatus (PInt 401)) (ApiError TimeoutFetchingLoginPage)
    eq_refl eq_refl _))).
  discriminate.
Defined.

(** X12: the refresh asks for re-authentication only after two
    authentication failures: the initial fetch raised [AuthError], and then
    the login or the retried fetch raised [AuthError] as well. *)
Theorem X12_reauth_needs_two_auth_failures
    (py_repr : pyval -> string) (T : Transport)
    (self : SmartOilGaugeDataUpdateCoordinator) (st : State) :
  fst (_async_update_data py_repr T self st) = Err ConfigEntryAuthFailed ->
  exists k st1,
    get_tanks_list py_repr T st = (Err (AuthError k), st1)
    /\ ((exists k', fst (login T (_username self) (_password self) st1)
                    = Err (AuthError k'))
        \/ (exists st2 k',
              login T (_username self) (_password self) st1 = (Ok tt, st2)
              /\ fst (get_tanks_list py_repr T st2) = Err (AuthError k'))).
Proof.
  unfold _async_update_data, relogin_and_retry, try_except, bind, raise.
  destruct (get_tanks_list py_repr T st) as [[d|e1] st1]; [discriminate|].
  destruct e1; try discriminate.
  intros H. exists m, st1. split; [reflexivity|].
  destruct (login T (_username self) (_password self) st1)
    as [[[]|e2] st2].
  - right. exists st2.
    destruct (get_tanks_list py_repr T st2) as [[d|e3] st3];
      [discriminate|].
    destruct e3; try discriminate. eexists; split; reflexivity.
  - left. destruct e2; try discriminate. eexists; reflexivity.
Qed.

Lemma X12_reauth_needs_two_auth_failures_witness :
  exists k st1,
    get_tanks_list repr_unused bad_credentials fresh
      = (Err (AuthError k), st1)
    /\ ((exists k', fst (login bad_credentials (_username account)
                           (_password account) st1) = Err (AuthError k'))
        \/ (exists st2 k',
              login bad_credentials (_username account) (_password account)
                st1 = (Ok tt, st2)
              /\ fst (get_tanks_list repr_unused bad_credentials st2)
                 = Err (AuthError k'))).
Proof.
  exact (X12_reauth_needs_two_auth_failures repr_unused bad_credentials
           account fresh eq_refl).
Defined.

(** *** The config flow *)

Lemma validate_input_returns
    (py_repr : pyval -> string) (T : Transport) (ui : ConfigFlow.UserInput) :
  exists code, fst (ConfigFlow._async_validate_input py_repr T ui) = Ok code.
Proof.
  unfold ConfigFlow._async_validate_input, try_except, bind, ret.
  destruct (login T _ _ ConfigFlow.new_session) as [[[]|e1] st1].
  - destruct (get_tanks_list py_repr T st1) as [[d|e2] st2];
      [|destruct e2]; simpl; eauto.
  - destruct e1; simpl; eauto.
Qed.

(** X13: validating the user's input never raises: it returns no error
    exactly when the login and the fetch that follows both succeed on the
    new session, and one of the three error codes otherwise. *)
Theorem X13_validate_input
    (py_repr : pyval -> string) (T : Transport) (ui : ConfigFlow.UserInput) :
  exists code,
    fst (ConfigFlow._async_validate_input py_repr T ui) = Ok code
    /\ (code = None \/ code = Some "auth" \/ code = Some "cannot_connect"
        \/ code = Some "unknown")
    /\ (code = None <->
        exists st1 st2 d,
          login T (ConfigFlow.username ui) (ConfigFlow.password ui)
            ConfigFlow.new_session = (Ok tt, st1)
          /\ get_tanks_list py_repr T st1 = (Ok d, st2)).
Proof.
  unfold ConfigFlow._async_validate_input, try_except, bind, ret.
  destruct (login T _ _ ConfigFlow.new_session) as [[[]|e1] st1] eqn:H1.
  - destruct (get_tanks_list py_repr T st1) as [[d|e2] st2] eqn:H2.
    + exists None. simpl. repeat split; auto.
      intros _. exists st1, st2, d. auto.
    + destruct e2; simpl; eexists; (split; [reflexivity|]);
        (split; [auto|]);
        (split; [discriminate|]);
        intros [sa [sb [d [Ha Hb]]]]; injection Ha as <-;
        rewrite H2 in Hb; discriminate.
  - destruct e1; simpl; eexists; (split; [reflexivity|]);
      (split; [auto|]);
      (split; [discriminate|]);
      intros [sa [sb [d [Ha Hb]]]]; discriminate.
Qed.

(** X14: when a network operation of the login times out during the
    validation, the error code is [cannot_connect]; it is not [auth]. *)
Theorem X14_validate_timeout
    (py_repr : pyval -> string) (T : Transport) (ui : ConfigFlow.UserInput) :
  times_out T (CallLogin (ConfigFlow.username ui) (ConfigFlow.password ui))
    ConfigFlow.new_session ->
  fst (ConfigFlow._async_validate_input py_repr T ui)
  = Ok (Some "cannot_connect").
Proof.
  intros Hto.
  assert (Hlogin : exists m, fst (login T (ConfigFlow.username ui)
                     (ConfigFlow.password ui) ConfigFlow.new_session)
                   = Err (ApiError m)).
  { inversion Hto as [|u p st Hb|u p st nonce st1 Hn Hb|]; subst.
    - unfold login, bind, _fetch_nonce, bind, try_except.
      destruct (_fetch_nonce_try T ConfigFlow.new_session) as [r st'].
      simpl in Hb. subst r. simpl. eauto.
    - unfold login, bind. rewrite Hn. unfold try_except.
      destruct (login_try T _ _ nonce st1) as [r st'].
      simpl in Hb. subst r. simpl. eauto. }
  destruct Hlogin as [m Hm].
  unfold ConfigFlow._async_validate_input, try_except, bind.
  destruct (login T _ _ ConfigFlow.new_session) as [r st1].
  simpl in Hm. subst r. reflexivity.
Qed.

Lemma X14_validate_timeout_witness :
  fst (ConfigFlow._async_validate_input repr_unused always_timeout new_user)
  = Ok (Some "cannot_connect").
Proof.
  refine (X14_validate_timeout repr_unused always_timeout new_user _).
  apply timeout_login_page. reflexivity.
Defined.

(** X15: the user step creates an entry only when the validation passed and
    the host's unique-id check let the user name through; the entry is titled with the user
    name and stores the user name, the password and the scan interval, 3600
    when none was given. *)
Theorem X15_entry_created
    (py_repr : pyval -> string) (T : Transport)
    (taken : string -> bool) (ui : ConfigFlow.UserInput)
    (title : string) (entry_data : dict) :
  ConfigFlow.async_step_user py_repr T taken (Some ui)
    = Ok (ConfigFlow.CreateEntry title entry_data) ->
  fst (ConfigFlow._async_validate_input py_repr T ui) = Ok None
  /\ taken (ConfigFlow.username ui) = false
  /\ title = ConfigFlow.username ui
  /\ dict_lookup entry_data Const.CONF_USERNAME
     = Some (PStr (ConfigFlow.username ui))
  /\ dict_lookup entry_data Const.CONF_PASSWORD
     = Some (PStr (ConfigFlow.password ui))
  /\ dict_lookup entry_data Const.CONF_SCAN_INTERVAL
     = Some (PInt (match ConfigFlow.scan_interval ui with
                   | Some n => n
                   | None => 3600
                   end)).
Proof.
  unfold ConfigFlow.async_step_user.
  destruct (fst (ConfigFlow._async_validate_input py_repr T ui))
    as [[code|]|e]; try discriminate.
  destruct (taken (ConfigFlow.username ui)); [discriminate|].
  intros H. injection H as <- <-. repeat split; reflexivity.
Qed.

Lemma X15_entry_created_witness :
  dict_lookup
    [(Const.CONF_USERNAME, PStr "user@example.com");
     (Const.CONF_PASSWORD, PStr "secret");
     (Const.CONF_SCAN_INTERVAL, PInt 3600)] Const.CONF_SCAN_INTERVAL
  = Some (PInt 3600).
Proof.
  exact (proj2 (proj2 (proj2 (proj2 (proj2
    (X15_entry_created repr_unused login_then_tanks (fun _ => false) new_user
       "user@example.com"
       [(Const.CONF_USERNAME, PStr "user@example.com");
        (Const.CONF_PASSWORD, PStr "secret");
        (Const.CONF_SCAN_INTERVAL, PInt 3600)] eq_refl)))))).
Defined.

(** The user step never raises, and when the validation fails it shows
    the form again with the one error code under [base], the user name and
    the scan interval filled in as submitted. *)
Lemma form_shown_again
    (py_repr : pyval -> string) (T : Transport)
    (taken : string -> bool) (ui : ConfigFlow.UserInput) :
  (exists r, ConfigFlow.async_step_user py_repr T taken (Some ui) = Ok r)
  /\ forall error,
       fst (ConfigFlow._async_validate_input py_repr T ui) = Ok (Some error) ->
       ConfigFlow.async_step_user py_repr T taken (Some ui)
       = Ok (ConfigFlow.ShowForm "user"
               (ConfigFlow.UserSchema (ConfigFlow.username ui)
                  (match ConfigFlow.scan_interval ui with
                   | Some n => n
                   | None => 3600
                   end))
               [("base", error)]).
Proof.
  split.
  - destruct (validate_input_returns py_repr T ui) as [code Hcode].
    unfold ConfigFlow.async_step_user. rewrite Hcode.
    destruct code; [eauto|].
    destruct (taken (ConfigFlow.username ui)); eauto.
  - intros error Herr. unfold ConfigFlow.async_step_user. rewrite Herr.
    reflexivity.
Qed.

(** X16: an entry created by the user step always gives the setup a scan
    interval: as long as the options do not set one, the setup polls at the
    submitted interval, or every 3600 seconds when none was submitted; an
    interval in the options takes the place of the one in the entry. *)
Theorem X16_created_entry_interval
    (py_repr : pyval -> string) (T : Transport)
    (taken : string -> bool) (ui : ConfigFlow.UserInput)
    (title id : string) (entry_data opts : dict) :
  ConfigFlow.async_step_user py_repr T taken (Some ui)
    = Ok (ConfigFlow.CreateEntry title entry_data) ->
  let entry := {| ConfigEntry.entry_id := id;
                  ConfigEntry.data := entry_data;
                  ConfigEntry.options := opts |} in
  (dict_lookup opts Const.CONF_SCAN_INTERVAL = None ->
   entry_scan_interval entry
   = PInt (match ConfigFlow.scan_interval ui with
           | Some n => n
           | None => 3600
           end))
  /\ (forall v, dict_lookup opts Const.CONF_SCAN_INTERVAL = Some v ->
      entry_scan_interval entry = v).
Proof.
  unfold ConfigFlow.async_step_user.
  destruct (fst (ConfigFlow._async_validate_input py_repr T ui))
    as [[code|]|e]; try discriminate.
  destruct (taken (ConfigFlow.username ui)); [discriminate|].
  intros H. injection H as <- <-. cbv zeta.
  unfold entry_scan_interval, dict_get_default. cbn [ConfigEntry.options
    ConfigEntry.data]. split.
  - intros ->. reflexivity.
  - intros v ->. reflexivity.
Qed.

Lemma X16_created_entry_interval_witness :
  entry_scan_interval
    {| ConfigEntry.entry_id := "entry0";
       ConfigEntry.data :=
         [(Const.CONF_USERNAME, PStr "user@example.com");
          (Const.CONF_PASSWORD, PStr "secret");
          (Const.CONF_SCAN_INTERVAL, PInt 3600)];
       ConfigEntry.options := [] |}
  = PInt 3600.
Proof.
  exact (proj1 (X16_created_entry_interval repr_unused login_then_tanks
    (fun _ => false) new_user "user@example.com" "entry0"
    [(Const.CONF_USERNAME, PStr "user@example.com");
     (Const.CONF_PASSWORD, PStr "secret");
     (Const.CONF_SCAN_INTERVAL, PInt 3600)] [] eq_refl) eq_refl).
Defined.

(** *** Finding a tank *)

Lemma first_tank_sound py_repr tanks id t :
  first_tank py_repr tanks id = Ok (Some t) ->
  In t tanks
  /\ exists d, t = PDict d /\ py_str py_repr (dict_get d "tank_id") = id.
Proof.
  induction tanks as [|x rest IH]; simpl; [discriminate|].
  destruct x; simpl; try discriminate.
  destruct (String.eqb_spec (py_str py_repr (dict_get d "tank_id")) id)
    as [Heq|Hne].
  - intros H; injection H as <-. split; [now left|]. eauto.
  - intros H. destruct (IH H) as [Hin Hd]. split; [now right|exact Hd].
Qed.

Lemma first_tank_complete py_repr tanks id :
  Forall (fun t => isinstance_dict t = true) tanks ->
  (exists d, In (PDict d) tanks
             /\ py_str py_repr (dict_get d "tank_id") = id) ->
  exists d', first_tank py_repr tanks id = Ok (Some (PDict d')).
Proof.
  induction 1 as [|x rest Hx Hrest IH]; intros [d [Hin Hid]];
    [contradiction|].
  destruct x; try discriminate. simpl.
  destruct (String.eqb_spec (py_str py_repr (dict_get d0 "tank_id")) id)
    as [Heq|Hne]; [eauto|].
  apply IH. destruct Hin as [Hin|Hin]; [|eauto].
  injection Hin as ->. contradiction.
Qed.

Lemma first_tank_none py_repr tanks id :
  first_tank py_repr tanks id = Ok None ->
  forall d, In (PDict d) tanks ->
            py_str py_repr (dict_get d "tank_id") <> id.
Proof.
  induction tanks as [|x rest IH]; simpl; [contradiction|].
  destruct x; simpl; try discriminate.
  destruct (String.eqb_spec (py_str py_repr (dict_get d "tank_id")) id)
    as [Heq|Hne]; [discriminate|].
  intros H d' [Hin|Hin]; [injection Hin as <-; exact Hne|eauto].
Qed.

Lemma first_tank_total py_repr tanks id :
  Forall (fun t => isinstance_dict t = true) tanks ->
  exists r, first_tank py_repr tanks id = Ok r.
Proof.
  induction 1 as [|x rest Hx Hrest [r IH]]; simpl; [eauto|].
  destruct x; try discriminate. simpl.
  destruct (String.eqb _ id); eauto.
Qed.

Lemma tank_found_shape py_repr self t :
  _tank py_repr self = Ok (Some t) ->
  exists d, t = PDict d
            /\ py_str py_repr (dict_get d "tank_id") = _tank_id self.
Proof.
  unfold _tank.
  destruct (_tanks_from (coordinator_data self)) as [tanks|e];
    cbn [rbind]; [|discriminate].
  intros H. apply first_tank_sound in H as [_ Hd]. exact Hd.
Qed.

(** X17: the record that [_tank] returns is a mapping of the snapshot's
    tank list whose [tank_id] prints as the entity's id. *)
Theorem X17_tank_sound
    (py_repr : pyval -> string) (self : SmartOilTankEntity) (t : pyval) :
  _tank py_repr self = Ok (Some t) ->
  exists d tanks,
    t = PDict d
    /\ _tanks_from (coordinator_data self) = Ok tanks
    /\ In t tanks
    /\ py_str py_repr (dict_get d "tank_id") = _tank_id self.
Proof.
  unfold _tank.
  destruct (_tanks_from (coordinator_data self)) as [tanks|e] eqn:Hf;
    cbn [rbind]; [|discriminate].
  intros H. apply first_tank_sound in H as [Hin [d [-> Hid]]].
  exists d, tanks. auto.
Qed.

Lemma X17_tank_sound_witness :
  exists d tanks,
    tank_150 = PDict d
    /\ _tanks_from (snapshot_of tank_150) = Ok tanks
    /\ In tank_150 tanks
    /\ py_str repr_unused (dict_get d "tank_id") = "1".
Proof.
  exact (X17_tank_sound repr_unused (entity_of (snapshot_of tank_150) "1")
           tank_150 eq_refl).
Defined.

(** X18: on a snapshot whose tank records are all mappings, [_tank] does
    not raise, and it returns [None] exactly when no record's [tank_id]
    prints as the entity's id. *)
Theorem X18_tank_missing
    (py_repr : pyval -> string) (self : SmartOilTankEntity)
    (tanks : list pyval) :
  _tanks_from (coordinator_data self) = Ok tanks ->
  Forall (fun t => isinstance_dict t = true) tanks ->
  (exists r, _tank py_repr self = Ok r)
  /\ (_tank py_repr self = Ok None <->
      forall d, In (PDict d) tanks ->
                py_str py_repr (dict_get d "tank_id") <> _tank_id self).
Proof.
  intros Hf Hall. unfold _tank. rewrite Hf. cbn [rbind].
  split; [now apply first_tank_total|]. split.
  - apply first_tank_none.
  - intros Hno.
    destruct (first_tank_total py_repr tanks (_tank_id self) Hall)
      as [[t|] Hr]; [|exact Hr].
    apply first_tank_sound in Hr as [Hin [d [-> Hid]]].
    exfalso. exact (Hno d Hin Hid).
Qed.

Lemma X18_tank_missing_witness :
  _tank repr_unused (entity_of (snapshot_of tank_150) "2") = Ok None.
Proof.
  refine (proj2 (proj2 (X18_tank_missing repr_unused
    (entity_of (snapshot_of tank_150) "2") [tank_150] eq_refl _)) _).
  - repeat constructor.
  - intros d [H|[]]. injection H as <-. discriminate.
Defined.

(** X19: a record without a [tank_id] gets its entities under the id
    [unknown], and no entity of that id ever reads it back: [_tank] looks
    for the record whose missing id prints as [None]. *)
Theorem X19_record_without_id
    (py_repr : pyval -> string) (d : dict) (snapshot : pyval) :
  dict_lookup d "tank_id" = None ->
  Sensor.tank_id_of py_repr (PDict d) = Ok "unknown"
  /\ BinarySensor.tank_id_of py_repr (PDict d) = Ok "unknown"
  /\ _tank py_repr (entity_of snapshot "unknown") <> Ok (Some (PDict d)).
Proof.
  intros Hmiss. repeat split.
  - unfold Sensor.tank_id_of, py_get_default, dict_get_default.
    rewrite Hmiss. reflexivity.
  - unfold BinarySensor.tank_id_of, py_get_default, dict_get_default.
    rewrite Hmiss. reflexivity.
  - intros H. apply tank_found_shape in H as [d' [Hd Hid]].
    injection Hd as <-. unfold dict_get in Hid. rewrite Hmiss in Hid.
    discriminate.
Qed.

Lemma X19_record_without_id_witness :
  Sensor.tank_id_of repr_unused (PDict [("sensor_gallons", PStr "10")])
  = Ok "unknown".
Proof.
  exact (proj1 (X19_record_without_id repr_unused
    [("sensor_gallons", PStr "10")] PNone eq_refl)).
Defined.

(** X20: on a snapshot whose tank records are all mappings, the id that the
    setup computes for a record with a [tank_id] leads [_tank] back to a
    record of that id: the first one of the snapshot. *)
Theorem X20_entity_reads_record
    (py_repr : pyval -> string) (snapshot : pyval) (tanks : list pyval)
    (d : dict) (v : pyval) :
  _tanks_from snapshot = Ok tanks ->
  Forall (fun t => isinstance_dict t = true) tanks ->
  In (PDict d) tanks ->
  dict_lookup d "tank_id" = Some v ->
  exists id d',
    Sensor.tank_id_of py_repr (PDict d) = Ok id
    /\ _tank py_repr (entity_of snapshot id) = Ok (Some (PDict d'))
    /\ In (PDict d') tanks
    /\ py_str py_repr (dict_get d' "tank_id") = id.
Proof.
  intros Hf Hall Hin Hv.
  exists (py_str py_repr v).
  assert (Hid : py_str py_repr (dict_get d "tank_id") = py_str py_repr v).
  { unfold dict_get. now rewrite Hv. }
  destruct (first_tank_complete py_repr tanks (py_str py_repr v) Hall)
    as [d' Hd']; [eauto|].
  exists d'. split.
  { unfold Sensor.tank_id_of, py_get_default, dict_get_default.
    now rewrite Hv. }
  unfold _tank, entity_of. cbn [coordinator_data _tank_id]. rewrite Hf.
  cbn [rbind]. split; [exact Hd'|].
  apply first_tank_sound in Hd' as [Hin' [d'' [Heq Hid']]].
  injection Heq as <-. auto.
Qed.

Lemma X20_entity_reads_record_witness :
  exists id d',
    Sensor.tank_id_of repr_unused tank_150 = Ok id
    /\ _tank repr_unused (entity_of (snapshot_of tank_150) id)
       = Ok (Some (PDict d'))
    /\ In (PDict d') [tank_150]
    /\ py_str repr_unused (dict_get d' "tank_id") = id.
Proof.
  refine (X20_entity_reads_record repr_unused (snapshot_of tank_150)
    [tank_150]
    [("tank_id", PInt 1); ("sensor_gallons", PStr "150.5");
     ("nominal", PStr "300")] (PInt 1) eq_refl _ _ eq_refl).
  - repeat constructor.
  - now left.
Defined.

(** *** Setting up the platforms *)

Lemma mem_string_In (s : string) (ids : list string) :
  mem_string s ids = true <-> In s ids.
Proof.
  unfold mem_string. rewrite existsb_exists. split.
  - intros [x [Hin Hx]]. apply String.eqb_eq in Hx. now subst.
  - intros Hin. exists s. split; [exact Hin|apply String.eqb_refl].
Qed.

Lemma mem_string_not_In (s : string) (ids : list string) :
  mem_string s ids = false <-> ~ In s ids.
Proof.
  rewrite <- mem_string_In. destruct (mem_string s ids); split; congruence.
Qed.

Lemma build_entities_of_id py_repr entry tank id :
  Sensor.tank_id_of py_repr tank = Ok id ->
  Sensor.build_entities_for_tank py_repr entry tank
  = Ok (tank_sensors (ConfigEntry.entry_id entry) id).
Proof.
  intros H. unfold Sensor.build_entities_for_tank. rewrite H. reflexivity.
Qed.

(** What the loop over the tanks does when it runs to its end. *)
Lemma add_new_tanks_ok py_repr entry tanks :
  forall created ents ents' created',
  Sensor.add_new_tanks py_repr entry tanks created ents = (Ok ents', created') ->
  exists new_ids,
    created' = (new_ids ++ created)%list
    /\ ents' = (ents ++ flat_map (tank_sensors (ConfigEntry.entry_id entry))
                         (List.rev new_ids))%list
    /\ NoDup new_ids
    /\ (forall id, In id new_ids -> ~ In id created)
    /\ (forall id, In id new_ids ->
                   exists t, In t tanks /\ Sensor.tank_id_of py_repr t = Ok id)
    /\ Forall (fun t => exists id, Sensor.tank_id_of py_repr t = Ok id
                                   /\ In id created') tanks.
Proof.
  induction tanks as [|tank rest IH]; intros created ents ents' created'.
  - simpl. intros H; injection H as <- <-. exists [].
    rewrite app_nil_r. repeat split; auto; try constructor; contradiction.
  - cbn [Sensor.add_new_tanks].
    destruct (Sensor.tank_id_of py_repr tank) as [id|e] eqn:Hid;
      [|discriminate].
    destruct (mem_string id created) eqn:Hmem; cbn [negb].
    + intros H. destruct (IH _ _ _ _ H)
        as [new_ids [-> [-> [Hnd [Hnew [Hsrc Hall]]]]]].
      exists new_ids. repeat split; auto.
      * intros x Hx. destruct (Hsrc x Hx) as [t [Ht Hxt]].
        exists t. split; [now right|exact Hxt].
      * constructor; [|exact Hall]. exists id. split; [exact Hid|].
        apply in_or_app. right. now apply mem_string_In.
    + rewrite (build_entities_of_id _ _ _ _ Hid).
      intros H. destruct (IH _ _ _ _ H)
        as [new_ids [-> [-> [Hnd [Hnew [Hsrc Hall]]]]]].
      apply mem_string_not_In in Hmem.
      exists (new_ids ++ [id])%list. repeat split.
      * now rewrite <- app_assoc.
      * rewrite rev_app_distr. cbn [List.rev app flat_map].
        now rewrite <- app_assoc.
      * apply NoDup_app; [exact Hnd|repeat constructor; auto|].
        intros x Hx [Heq | []]. subst x. apply (Hnew id Hx). now left.
      * intros x Hx Hc. apply in_app_or in Hx as [Hx|[<- | []]].
        -- apply (Hnew x Hx). now right.
        -- contradiction.
      * intros x Hx. apply in_app_or in Hx as [Hx|[<- | []]].
        -- destruct (Hsrc x Hx) as [t [Ht Hxt]].
           exists t. split; [now right|exact Hxt].
        -- exists tank. split; [now left|exact Hid].
      * constructor.
        -- exists id. split; [exact Hid|].
           apply in_or_app. right. now left.
        -- exact Hall.
Qed.

(** The loop changes nothing when every tank has been seen. *)
Lemma add_new_tanks_noop py_repr entry tanks created :
  Forall (fun t => exists id, Sensor.tank_id_of py_repr t = Ok id
                              /\ In id created) tanks ->
  Sensor.add_new_tanks py_repr entry tanks created [] = (Ok [], created).
Proof.
  induction 1 as [|tank rest [id [Hid Hin]] Hrest IH]; [reflexivity|].
  cbn [Sensor.add_new_tanks]. rewrite Hid.
  apply mem_string_In in Hin. rewrite Hin. exact IH.
Qed.

Lemma tank_sensors_length e id : List.length (tank_sensors e id) = 12%nat.
Proof. reflexivity. Qed.

Lemma flat_map_tank_sensors_length e ids :
  List.length (flat_map (tank_sensors e) ids) = (12 * List.length ids)%nat.
Proof.
  induction ids as [|id ids IH]; [reflexivity|].
  cbn [flat_map]. rewrite length_app, IH, tank_sensors_length.
  cbn [List.length]. lia.
Qed.

Lemma new_ids_bounded py_repr (tanks : list pyval) (ids : list string) :
  NoDup ids ->
  (forall id, In id ids ->
              exists t, In t tanks /\ Sensor.tank_id_of py_repr t = Ok id) ->
  (List.length ids <= List.length tanks)%nat.
Proof.
  revert tanks. induction ids as [|id ids IH]; intros tanks Hnd Hsrc.
  - simpl. lia.
  - inversion Hnd as [|? ? Hnotin Hnd']; subst.
    destruct (Hsrc id (or_introl eq_refl)) as [t [Ht Hid]].
    apply in_split in Ht as [l1 [l2 ->]].
    rewrite length_app. cbn [List.length].
    assert (H : (List.length ids <= List.length (l1 ++ l2))%nat).
    { apply IH; [exact Hnd'|].
      intros x Hx. destruct (Hsrc x (or_intror Hx)) as [t' [Ht' Hx']].
      exists t'. split; [|exact Hx'].
      apply in_app_or in Ht' as [Ht'|[Ht'|Ht']].
      - apply in_or_app. now left.
      - subst t'. rewrite Hid in Hx'. injection Hx' as ->. contradiction.
      - apply in_or_app. now right. }
    rewrite length_app in H. lia.
Qed.

(** *** The tank ids in the order of their first record

    For a list [l], [rev (nodup _ (rev l))] keeps the first occurrence of
    each element of [l], in the order of [l]. *)

Lemma nodup_snoc (X : list string) (n : string) :
  nodup string_dec (X ++ [n])
  = (nodup string_dec (filter (fun x => negb (String.eqb x n)) X) ++ [n])%list.
Proof.
  induction X as [|x X IH]; [reflexivity|].
  cbn [app nodup filter].
  destruct (String.eqb x n) eqn:Hx; cbn [negb].
  - apply String.eqb_eq in Hx. subst x.
    destruct (in_dec string_dec n (X ++ [n])) as [_|Hn]; [exact IH|].
    exfalso. apply Hn, in_or_app. right. now left.
  - apply String.eqb_neq in Hx. cbn [nodup].
    destruct (in_dec string_dec x (X ++ [n])) as [Hin|Hin];
      destruct (in_dec string_dec x
                  (filter (fun x0 => negb (String.eqb x0 n)) X)) as [Hf|Hf].
    + exact IH.
    + exfalso. apply Hf, filter_In. split.
      * apply in_app_or in Hin as [Hin|[Heq | []]]; [exact Hin|].
        now subst.
      * apply String.eqb_neq in Hx. now rewrite Hx.
    + exfalso. apply Hin, in_or_app. left.
      now apply filter_In in Hf as [Hf _].
    + cbn [app]. now rewrite IH.
Qed.

Lemma filter_unseen_cons (n : string) (created names : list string) :
  filter (fun x => negb (String.eqb x n))
    (filter (fun x => negb (mem_string x created)) names)
  = filter (fun x => negb (mem_string x (n :: created))) names.
Proof.
  induction names as [|x names IH]; [reflexivity|].
  assert (Hm : mem_string x (n :: created)
               = String.eqb x n || mem_string x created) by reflexivity.
  cbn [filter]. rewrite Hm.
  destruct (mem_string x created); cbn [negb].
  - rewrite orb_true_r. exact IH.
  - rewrite orb_false_r. cbn [filter].
    destruct (String.eqb x n); cbn [negb]; now rewrite IH.
Qed.

Lemma first_occurrences_cons (n : string) (created rest : list string) :
  mem_string n created = false ->
  List.rev (nodup string_dec (List.rev
     (filter (fun x => negb (mem_string x created)) (n :: rest))))
  = n :: List.rev (nodup string_dec (List.rev
         (filter (fun x => negb (mem_string x (n :: created))) rest))).
Proof.
  intros Hn. cbn [filter]. rewrite Hn. cbn [negb List.rev].
  rewrite nodup_snoc, rev_app_distr. cbn [List.rev app].
  now rewrite filter_rev, filter_unseen_cons.
Qed.

Lemma first_occurrences_In (created names : list string) (id : string) :
  In id (List.rev (nodup string_dec (List.rev
          (filter (fun x => negb (mem_string x created)) names))))
  <-> In id names /\ ~ In id created.
Proof.
  rewrite <- in_rev, nodup_In, <- in_rev, filter_In, negb_true_iff.
  now rewrite mem_string_not_In.
Qed.

Lemma first_occurrences_NoDup (l : list string) :
  NoDup (List.rev (nodup string_dec (List.rev l))).
Proof. apply NoDup_rev, NoDup_nodup. Qed.

Lemma first_occurrences_length (l : list string) :
  (List.length (List.rev (nodup string_dec (List.rev l)))
   <= List.length l)%nat.
Proof.
  apply NoDup_incl_length; [apply first_occurrences_NoDup|].
  intros x Hx. now apply in_rev, nodup_In, in_rev in Hx.
Qed.

Lemma Forall_exists_Forall2 {A B} (P : A -> B -> Prop) (l : list A) :
  Forall (fun a => exists b, P a b) l -> exists l', Forall2 P l l'.
Proof.
  induction 1 as [|a l [b Hb] _ [l' IH]].
  - exists []. constructor.
  - exists (b :: l'). now constructor.
Qed.

(** The loop over the tanks, when every record has an id: the new entities
    are the sensors of the ids that were not created yet, each id once, in
    the order of its first record. *)
Lemma add_new_tanks_names py_repr entry tanks names :
  Forall2 (fun t n => Sensor.tank_id_of py_repr t = Ok n) tanks names ->
  forall created ents,
  Sensor.add_new_tanks py_repr entry tanks created ents
  = (Ok (ents ++ flat_map (tank_sensors (ConfigEntry.entry_id entry))
                   (List.rev (nodup string_dec (List.rev
                      (filter (fun n => negb (mem_string n created))
                              names)))))%list,
     (nodup string_dec (List.rev
        (filter (fun n => negb (mem_string n created)) names))
      ++ created)%list).
Proof.
  induction 1 as [|t n tanks names Hid _ IH]; intros created ents.
  - cbn. now rewrite app_nil_r.
  - cbn [Sensor.add_new_tanks]. rewrite Hid.
    destruct (mem_string n created) eqn:Hm; cbn [negb].
    + cbn [filter]. rewrite Hm. cbn [negb]. apply IH.
    + rewrite (build_entities_of_id _ _ _ _ Hid), IH.
      rewrite (first_occurrences_cons n created names Hm).
      cbn [flat_map]. rewrite <- !app_assoc. f_equal.
      cbn [filter]. rewrite Hm. cbn [negb List.rev].
      rewrite nodup_snoc, filter_rev, filter_unseen_cons.
      now rewrite <- app_assoc.
Qed.

(** A loop that runs to its end has found an id in every record. *)
Lemma add_new_tanks_all_named py_repr entry tanks created ents ents' created' :
  Sensor.add_new_tanks py_repr entry tanks created ents = (Ok ents', created') ->
  exists names,
    Forall2 (fun t n => Sensor.tank_id_of py_repr t = Ok n) tanks names.
Proof.
  intros H. apply add_new_tanks_ok in H as [_ [_ [_ [_ [_ [_ Hall]]]]]].
  apply Forall_exists_Forall2.
  eapply Forall_impl; [|exact Hall].
  intros t [id [Hid _]]. now exists id.
Qed.

(** What the setup has done when it returns: [ids] are the tank ids in the
    order of their first record. *)
Lemma sensor_setup_ok py_repr entry snapshot p :
  Sensor.async_setup_entry py_repr entry snapshot = Ok p ->
  exists tanks ids,
    _tanks_from snapshot = Ok tanks
    /\ created_tank_ids p = List.rev ids
    /\ add_calls p =
         [Sensor.AccountEntity (ConfigEntry.entry_id entry)
          :: flat_map (tank_sensors (ConfigEntry.entry_id entry)) ids]
    /\ NoDup ids
    /\ (forall id, In id ids ->
                    exists t, In t tanks
                              /\ Sensor.tank_id_of py_repr t = Ok id).
Proof.
  unfold Sensor.async_setup_entry.
  destruct (_tanks_from snapshot) as [tanks|e]; cbn [rbind]; [|discriminate].
  destruct (Sensor.add_new_tanks py_repr entry tanks [] _)
    as [[ents'|e] created] eqn:Hrun; [|discriminate].
  destruct (add_new_tanks_ok _ _ _ _ _ _ _ Hrun)
    as [new_ids [-> [-> [Hnd [_ [Hsrc _]]]]]].
  rewrite app_nil_r. cbn [app].
  intros H. injection H as <-.
  exists tanks, (List.rev new_ids). rewrite rev_involutive.
  cbn [created_tank_ids add_calls async_add_entities app].
  repeat split; auto.
  - now apply NoDup_rev.
  - intros id Hin. apply Hsrc. now apply in_rev.
Qed.

(** X21: when the sensor platform's setup returns, every record of the
    snapshot has a tank id, and the host has been handed one batch: the
    account sensor followed by the twelve sensors of each tank id of the
    snapshot's records, each id once, the ids in the order of their first
    record.  The ids marked as created are those of the records.  So the
    batch holds 1 + 12 * n entities for n distinct ids, and n is at most
    the number of tanks that the account sensor reports. *)
Theorem X21_sensor_setup
    (py_repr : pyval -> string) (entry : ConfigEntry.ConfigEntry)
    (snapshot : pyval) (p : Platform Sensor.SensorEntity) :
  Sensor.async_setup_entry py_repr entry snapshot = Ok p ->
  exists tanks names,
    _tanks_from snapshot = Ok tanks
    /\ Forall2 (fun t n => Sensor.tank_id_of py_repr t = Ok n) tanks names
    /\ let ids := List.rev (nodup string_dec (List.rev names)) in
       add_calls p =
         [Sensor.AccountEntity (ConfigEntry.entry_id entry)
          :: flat_map (tank_sensors (ConfigEntry.entry_id entry)) ids]
       /\ NoDup ids
       /\ (forall id, In id ids <-> In id names)
       /\ (forall id, In id (created_tank_ids p) <-> In id names)
       /\ List.length (added p) = (1 + 12 * List.length ids)%nat
       /\ exists n, Sensor.AccountSensor.native_value snapshot = Ok n
                    /\ Z.of_nat (List.length ids) <= n.
Proof.
  unfold Sensor.async_setup_entry.
  destruct (_tanks_from snapshot) as [tanks|e] eqn:Hf; cbn [rbind];
    [|discriminate].
  destruct (Sensor.add_new_tanks py_repr entry tanks [] _)
    as [[ents'|e] created] eqn:Hrun; [|discriminate].
  destruct (add_new_tanks_all_named _ _ _ _ _ _ _ Hrun) as [names Hnames].
  rewrite (add_new_tanks_names _ _ _ _ Hnames) in Hrun.
  change (filter (fun n => negb (mem_string n [])) names)
    with (filter (fun _ : string => true) names) in Hrun.
  rewrite filter_true in Hrun.
  injection Hrun as <- <-. cbn [app].
  intros H. injection H as <-.
  exists tanks, names. split; [reflexivity|]. split; [exact Hnames|].
  cbv zeta. cbn [created_tank_ids add_calls async_add_entities app].
  assert (Hin : forall id,
            In id (List.rev (nodup string_dec (List.rev names)))
            <-> In id names).
  { intros id. now rewrite <- in_rev, nodup_In, <- in_rev. }
  split; [reflexivity|]. split; [apply first_occurrences_NoDup|].
  split; [exact Hin|]. split; [|split].
  - intros id. now rewrite app_nil_r, nodup_In, <- in_rev.
  - unfold added, async_add_entities.
    cbn [add_calls app List.concat List.length].
    now rewrite !app_nil_r, flat_map_tank_sensors_length.
  - unfold Sensor.AccountSensor.native_value. rewrite Hf. cbn [rbind].
    eexists. split; [reflexivity|].
    apply Nat2Z.inj_le.
    rewrite (Forall2_length Hnames). apply first_occurrences_length.
Qed.

Lemma X21_sensor_setup_witness :
  let p := {| created_tank_ids := ["7"; "1"];
              add_calls := [Sensor.AccountEntity "entry0"
                            :: (tank_sensors "entry0" "1"
                                ++ tank_sensors "entry0" "7")%list] |} in
  exists tanks names,
    _tanks_from (snapshot_with three_records) = Ok tanks
    /\ Forall2 (fun t n => Sensor.tank_id_of repr_unused t = Ok n) tanks names
    /\ let ids := List.rev (nodup string_dec (List.rev names)) in
       add_calls p =
         [Sensor.AccountEntity "entry0"
          :: flat_map (tank_sensors "entry0") ids]
       /\ NoDup ids
       /\ (forall id, In id ids <-> In id names)
       /\ (forall id, In id (created_tank_ids p) <-> In id names)
       /\ List.length (added p) = (1 + 12 * List.length ids)%nat
       /\ exists n,
            Sensor.AccountSensor.native_value (snapshot_with three_records)
            = Ok n
            /\ Z.of_nat (List.length ids) <= n.
Proof.
  exact (X21_sensor_setup repr_unused entry0 (snapshot_with three_records)
           {| created_tank_ids := ["7"; "1"];
              add_calls := [Sensor.AccountEntity "entry0"
                            :: (tank_sensors "entry0" "1"
                                ++ tank_sensors "entry0" "7")%list] |}
           eq_refl).
Defined.

(** What a run of the listener that returns has done: [ids] are the new
    tank ids in the order of their first record. *)
Lemma listener_ok py_repr entry snapshot p p1 :
  Sensor._coordinator_updated py_repr entry snapshot p = (Ok tt, p1) ->
  exists tanks ids,
    _tanks_from snapshot = Ok tanks
    /\ created_tank_ids p1 = (List.rev ids ++ created_tank_ids p)%list
    /\ add_calls p1 =
         (add_calls p ++
          match ids with
          | [] => []
          | _ => [flat_map (tank_sensors (ConfigEntry.entry_id entry)) ids]
          end)%list
    /\ NoDup ids
    /\ (forall id, In id ids -> ~ In id (created_tank_ids p))
    /\ (forall id, In id ids ->
                    exists t, In t tanks
                              /\ Sensor.tank_id_of py_repr t = Ok id)
    /\ Forall (fun t => exists id, Sensor.tank_id_of py_repr t = Ok id
                                    /\ In id (created_tank_ids p1)) tanks.
Proof.
  unfold Sensor._coordinator_updated.
  destruct (_tanks_from snapshot) as [tanks|e]; [|discriminate].
  destruct (Sensor.add_new_tanks py_repr entry tanks (created_tank_ids p) [])
    as [[ents'|e] created] eqn:Hrun; [|discriminate].
  destruct (add_new_tanks_ok _ _ _ _ _ _ _ Hrun)
    as [new_ids [-> [-> [Hnd [Hnew [Hsrc Hall]]]]]].
  cbn [app]. intros H. injection H as <-.
  exists tanks, (List.rev new_ids). rewrite rev_involutive.
  assert (Hin : forall id, In id (List.rev new_ids) -> In id new_ids)
    by (intros id; apply in_rev).
  destruct (List.rev new_ids) as [|id0 ids] eqn:Hrev.
  - cbn [flat_map created_tank_ids add_calls]. rewrite app_nil_r.
    repeat split; auto; try constructor; contradiction.
  - cbn [flat_map tank_sensors all_sensor_classes map app].
    cbn [async_add_entities created_tank_ids add_calls].
    repeat split; auto.
    rewrite <- Hrev. now apply NoDup_rev.
Qed.

(** X22: the listener is idempotent: once it has run on a snapshot, running
    it again on the same snapshot adds nothing and changes nothing. *)
Theorem X22_listener_idempotent
    (py_repr : pyval -> string) (entry : ConfigEntry.ConfigEntry)
    (snapshot : pyval) (p p1 : Platform Sensor.SensorEntity) :
  Sensor._coordinator_updated py_repr entry snapshot p = (Ok tt, p1) ->
  Sensor._coordinator_updated py_repr entry snapshot p1 = (Ok tt, p1).
Proof.
  intros H. apply listener_ok in H
    as [tanks [ids [Hf [_ [_ [_ [_ [_ Hall]]]]]]]].
  unfold Sensor._coordinator_updated. rewrite Hf.
  rewrite (add_new_tanks_noop _ _ _ _ Hall). destruct p1; reflexivity.
Qed.

Lemma X22_listener_idempotent_witness :
  Sensor._coordinator_updated repr_unused entry0 (snapshot_with [tank_150])
    {| created_tank_ids := ["1"];
       add_calls := [tank_sensors "entry0" "1"] |}
  = (Ok tt, {| created_tank_ids := ["1"];
               add_calls := [tank_sensors "entry0" "1"] |}).
Proof.
  exact (X22_listener_idempotent repr_unused entry0 (snapshot_with [tank_150])
           no_sensors _ eq_refl).
Defined.

(** X23: a run of the listener that returns adds entities for the tank
    ids of the snapshot's records that had not been created, and for no
    other.  Every record of the snapshot has a tank id; the new ids are
    those of the records that were not marked as created, each once, in the
    order of their first record; the host gets one more batch, with the
    twelve sensors of each new id, and no batch at all when there is no new
    id; afterwards the ids of the records are marked as created beside those
    that were. *)
Theorem X23_listener_adds_new_tanks
    (py_repr : pyval -> string) (entry : ConfigEntry.ConfigEntry)
    (snapshot : pyval) (p p1 : Platform Sensor.SensorEntity) :
  Sensor._coordinator_updated py_repr entry snapshot p = (Ok tt, p1) ->
  exists tanks names,
    _tanks_from snapshot = Ok tanks
    /\ Forall2 (fun t n => Sensor.tank_id_of py_repr t = Ok n) tanks names
    /\ let unseen :=
         filter (fun n => negb (mem_string n (created_tank_ids p))) names in
       let ids := List.rev (nodup string_dec (List.rev unseen)) in
       add_calls p1 =
         (add_calls p ++
          match ids with
          | [] => []
          | _ => [flat_map (tank_sensors (ConfigEntry.entry_id entry)) ids]
          end)%list
       /\ added p1 = (added p ++ flat_map
                         (tank_sensors (ConfigEntry.entry_id entry)) ids)%list
       /\ NoDup ids
       /\ (forall id, In id ids
                      <-> In id names /\ ~ In id (created_tank_ids p))
       /\ (forall id, In id (created_tank_ids p1)
                      <-> In id (created_tank_ids p) \/ In id names).
Proof.
  unfold Sensor._coordinator_updated.
  destruct (_tanks_from snapshot) as [tanks|e]; [|discriminate].
  destruct (Sensor.add_new_tanks py_repr entry tanks (created_tank_ids p) [])
    as [[ents'|e] created] eqn:Hrun; [|discriminate].
  destruct (add_new_tanks_all_named _ _ _ _ _ _ _ Hrun) as [names Hnames].
  rewrite (add_new_tanks_names _ _ _ _ Hnames) in Hrun.
  injection Hrun as <- <-. cbn [app].
  intros H. injection H as <-.
  exists tanks, names. split; [reflexivity|]. split; [exact Hnames|].
  cbv zeta.
  pose proof (first_occurrences_In (created_tank_ids p) names) as Hin.
  pose proof (first_occurrences_NoDup
                (filter (fun n => negb (mem_string n (created_tank_ids p)))
                        names)) as Hnd.
  assert (Hcreated : forall id,
            In id (nodup string_dec (List.rev
                     (filter (fun n => negb (mem_string n (created_tank_ids p)))
                             names)) ++ created_tank_ids p)%list
            <-> In id (created_tank_ids p) \/ In id names).
  { intros id. rewrite in_app_iff, nodup_In, <- in_rev, filter_In.
    rewrite negb_true_iff, mem_string_not_In.
    destruct (in_dec string_dec id (created_tank_ids p)); tauto. }
  destruct (List.rev (nodup string_dec (List.rev
              (filter (fun n => negb (mem_string n (created_tank_ids p)))
                      names)))) as [|id0 ids].
  - cbn [flat_map created_tank_ids add_calls]. rewrite !app_nil_r.
    split; [reflexivity|]. split; [reflexivity|].
    split; [exact Hnd|]. split; [exact Hin|exact Hcreated].
  - cbn [flat_map tank_sensors all_sensor_classes map app].
    cbn [async_add_entities created_tank_ids add_calls].
    split; [reflexivity|]. split.
    + unfold added, async_add_entities. cbn [add_calls].
      rewrite concat_app. cbn [List.concat]. now rewrite app_nil_r.
    + split; [exact Hnd|]. split; [exact Hin|exact Hcreated].
Qed.

Lemma X23_listener_adds_new_tanks_witness :
  let p1 := {| created_tank_ids := ["7"; "1"];
               add_calls := [Sensor.AccountEntity "entry0"
                             :: tank_sensors "entry0" "1";
                             tank_sensors "entry0" "7"] |} in
  exists tanks names,
    _tanks_from (snapshot_with three_records) = Ok tanks
    /\ Forall2 (fun t n => Sensor.tank_id_of repr_unused t = Ok n) tanks names
    /\ let unseen :=
         filter (fun n => negb (mem_string n
                                  (created_tank_ids sensors_of_tank_1)))
                names in
       let ids := List.rev (nodup string_dec (List.rev unseen)) in
       add_calls p1 =
         (add_calls sensors_of_tank_1 ++
          match ids with
          | [] => []
          | _ => [flat_map (tank_sensors "entry0") ids]
          end)%list
       /\ added p1 = (added sensors_of_tank_1
                      ++ flat_map (tank_sensors "entry0") ids)%list
       /\ NoDup ids
       /\ (forall id, In id ids
                      <-> In id names
                          /\ ~ In id (created_tank_ids sensors_of_tank_1))
       /\ (forall id, In id (created_tank_ids p1)
                      <-> In id (created_tank_ids sensors_of_tank_1)
                          \/ In id names).
Proof.
  exact (X23_listener_adds_new_tanks repr_unused entry0
           (snapshot_with three_records) sensors_of_tank_1
           {| created_tank_ids := ["7"; "1"];
              add_calls := [Sensor.AccountEntity "entry0"
                            :: tank_sensors "entry0" "1";
                            tank_sensors "entry0" "7"] |}
           eq_refl).
Defined.

(** X24: the listener marks a tank as created before its loop is over.  When
    a record that is no mapping follows a new tank, the run raises
    [AttributeError]: the new tank is then marked though the host got no
    entity for it, and a later run on a sound snapshot does not add it. *)
Theorem X24_listener_interrupted
    (py_repr : pyval -> string) (entry : ConfigEntry.ConfigEntry)
    (p : Platform Sensor.SensorEntity) (d : dict) (junk : pyval)
    (id : string) :
  Sensor.tank_id_of py_repr (PDict d) = Ok id ->
  ~ In id (created_tank_ids p) ->
  isinstance_dict junk = false ->
  let p1 := {| created_tank_ids := id :: created_tank_ids p;
               add_calls := add_calls p |} in
  Sensor._coordinator_updated py_repr entry (snapshot_with [PDict d; junk]) p
    = (Err AttributeError, p1)
  /\ Sensor._coordinator_updated py_repr entry (snapshot_with [PDict d]) p1
    = (Ok tt, p1).
Proof.
  intros Hid Hnew Hjunk. cbv zeta.
  apply mem_string_not_In in Hnew.
  assert (Hj : Sensor.tank_id_of py_repr junk = Err AttributeError).
  { destruct junk; try reflexivity. discriminate. }
  assert (Hsnap : forall l, _tanks_from (snapshot_with l) = Ok l)
    by reflexivity.
  split.
  - unfold Sensor._coordinator_updated. rewrite Hsnap.
    cbn [Sensor.add_new_tanks]. rewrite Hid, Hnew. cbn [negb].
    rewrite (build_entities_of_id _ _ _ _ Hid), Hj. reflexivity.
  - unfold Sensor._coordinator_updated. rewrite Hsnap.
    cbn [Sensor.add_new_tanks created_tank_ids]. rewrite Hid.
    unfold mem_string. cbn [existsb]. rewrite String.eqb_refl.
    reflexivity.
Qed.

Lemma X24_listener_interrupted_witness :
  Sensor._coordinator_updated repr_unused entry0
    (snapshot_with [tank_150; PStr "?"]) no_sensors
  = (Err AttributeError,
     {| created_tank_ids := ["1"]; add_calls := [] |}).
Proof.
  refine (proj1 (X24_listener_interrupted repr_unused entry0 no_sensors
    [("tank_id", PInt 1); ("sensor_gallons", PStr "150.5");
     ("nominal", PStr "300")] (PStr "?") "1" eq_refl _ eq_refl)).
  intros [].
Defined.

(** *** The two platforms side by side *)

Lemma add_new_tanks_agree py_repr entry tanks :
  forall created es eb,
  match Sensor.add_new_tanks py_repr entry tanks created es,
        BinarySensor.add_new_tanks py_repr entry tanks created eb with
  | (Ok _, c1), (Ok eb', c2) =>
      c1 = c2
      /\ exists new_ids,
           c1 = (new_ids ++ created)%list
           /\ eb' = (eb ++ map (BinarySensor.LowOilEntity
                                  (ConfigEntry.entry_id entry))
                            (List.rev new_ids))%list
  | (Err e1, c1), (Err e2, c2) => e1 = e2 /\ c1 = c2
  | _, _ => False
  end.
Proof.
  induction tanks as [|tank rest IH]; intros created es eb.
  - simpl. split; [reflexivity|]. exists []. now rewrite app_nil_r.
  - cbn [Sensor.add_new_tanks BinarySensor.add_new_tanks].
    unfold BinarySensor.build_entities_for_tank.
    change (BinarySensor.tank_id_of py_repr tank)
      with (Sensor.tank_id_of py_repr tank).
    destruct (Sensor.tank_id_of py_repr tank) as [id|e] eqn:Hid; [|auto].
    destruct (mem_string id created); cbn [negb rbind].
    + apply IH.
    + rewrite (build_entities_of_id _ _ _ _ Hid).
      specialize (IH (id :: created)
                     (es ++ tank_sensors (ConfigEntry.entry_id entry) id)%list
                     (eb ++ [BinarySensor.LowOilEntity
                               (ConfigEntry.entry_id entry) id])%list).
      destruct (Sensor.add_new_tanks _ _ rest _ _) as [[es'|e1] c1];
        destruct (BinarySensor.add_new_tanks _ _ rest _ _) as [[eb'|e2] c2];
        try exact IH.
      destruct IH as [-> [new_ids [-> ->]]]. split; [reflexivity|].
      exists (new_ids ++ [id])%list. split.
      * now rewrite <- app_assoc.
      * rewrite rev_app_distr. cbn [List.rev app map].
        now rewrite <- app_assoc.
Qed.

(** X25: on the same snapshot the two platforms fail together, with the
    same exception, or return together, and then they have created entities
    for the same tank ids: one low-oil sensor per id beside the twelve
    sensors. *)
Theorem X25_platforms_agree
    (py_repr : pyval -> string) (entry : ConfigEntry.ConfigEntry)
    (snapshot : pyval) :
  match Sensor.async_setup_entry py_repr entry snapshot,
        BinarySensor.async_setup_entry py_repr entry snapshot with
  | Ok p, Ok q =>
      created_tank_ids q = created_tank_ids p
      /\ added q = map (BinarySensor.LowOilEntity
                          (ConfigEntry.entry_id entry))
                     (List.rev (created_tank_ids p))
  | Err e1, Err e2 => e1 = e2
  | _, _ => False
  end.
Proof.
  unfold Sensor.async_setup_entry, BinarySensor.async_setup_entry.
  destruct (_tanks_from snapshot) as [tanks|e]; cbn [rbind]; [|reflexivity].
  pose proof (add_new_tanks_agree py_repr entry tanks []
                [Sensor.AccountEntity (ConfigEntry.entry_id entry)] [])
    as H.
  destruct (Sensor.add_new_tanks _ _ tanks _ _) as [[es'|e1] c1];
    destruct (BinarySensor.add_new_tanks _ _ tanks _ _) as [[eb'|e2] c2];
    try exact H; [|exact (proj1 H)].
  destruct H as [-> [new_ids [-> ->]]]. rewrite app_nil_r. cbn [app].
  assert (Hp : forall l : list Sensor.SensorEntity,
             created_tank_ids
               (match l with
                | [] => {| created_tank_ids := new_ids; add_calls := [] |}
                | _ :: _ =>
                    async_add_entities l
                      {| created_tank_ids := new_ids; add_calls := [] |}
                end) = new_ids)
    by (intros []; reflexivity).
  rewrite Hp.
  destruct (map _ (List.rev new_ids)) as [|b bs] eqn:Hmap.
  - split; [reflexivity|]. reflexivity.
  - split; [reflexivity|]. unfold added. cbn [async_add_entities add_calls
      app List.concat]. now rewrite app_nil_r.
Qed.

(** *** Unique ids *)

Lemma app_prefix_or (x y a b : list ascii) :
  (x ++ a = y ++ b)%list -> prefixb x y = true \/ prefixb y x = true.
Proof.
  revert y; induction x as [|c x IH]; intros y H; [now left|].
  destruct y as [|c' y]; [now right|].
  injection H as -> H. cbn [prefixb]. rewrite Ascii.eqb_refl.
  exact (IH y H).
Qed.

Lemma prefixb_app (x a : list ascii) : prefixb x (x ++ a) = true.
Proof.
  induction x as [|c x IH]; [reflexivity|].
  cbn [app prefixb]. now rewrite Ascii.eqb_refl.
Qed.

Lemma list_ascii_inj (s t : string) :
  list_ascii_of_string s = list_ascii_of_string t -> s = t.
Proof.
  intros H. rewrite <- (string_of_list_ascii_of_string s),
    <- (string_of_list_ascii_of_string t). now rewrite H.
Qed.

(** No suffix, read backwards up to its underscore, starts another one. *)
Lemma suffix_keys_apart (c1 c2 : Sensor.SensorClass) :
  prefixb (List.rev (list_ascii_of_string (Sensor.unique_suffix c1)) ++ ["_"%char])
          (List.rev (list_ascii_of_string (Sensor.unique_suffix c2)) ++ ["_"%char])
  = true ->
  c1 = c2.
Proof. destruct c1, c2; vm_compute; congruence. Qed.

Lemma suffix_keys_not_count (c : Sensor.SensorClass) :
  prefixb (List.rev (list_ascii_of_string (Sensor.unique_suffix c)) ++ ["_"%char])
          (List.rev (list_ascii_of_string "tank_count"))
  = false.
Proof. destruct c; reflexivity. Qed.

Lemma tail_key_split (id s : string) :
  List.rev (list_ascii_of_string (id ++ "_" ++ s)) =
  ((List.rev (list_ascii_of_string s) ++ ["_"%char])
     ++ List.rev (list_ascii_of_string id))%list.
Proof.
  rewrite !list_ascii_app. cbn [list_ascii_of_string app].
  rewrite rev_app_distr. cbn [List.rev]. reflexivity.
Qed.

Lemma tank_unique_id_inj (e id1 id2 : string) (c1 c2 : Sensor.SensorClass) :
  Sensor.unique_id (Sensor.TankEntity c1 e id1)
  = Sensor.unique_id (Sensor.TankEntity c2 e id2) ->
  c1 = c2 /\ id1 = id2.
Proof.
  cbn [Sensor.unique_id]. intros H.
  apply (f_equal list_ascii_of_string) in H.
  rewrite !(list_ascii_app e), !(list_ascii_app "_") in H.
  apply app_inv_head in H. apply app_inv_head in H.
  apply (f_equal (@List.rev ascii)) in H. rewrite !tail_key_split in H.
  assert (Hc : c1 = c2).
  { destruct (app_prefix_or _ _ _ _ H) as [Hp|Hp].
    - now apply suffix_keys_apart.
    - symmetry. now apply suffix_keys_apart. }
  subst c2. split; [reflexivity|].
  apply app_inv_head in H. apply (f_equal (@List.rev ascii)) in H.
  rewrite !rev_involutive in H. now apply list_ascii_inj.
Qed.

Lemma key_prefix (id s t : string) :
  t = id ++ "_" ++ s ->
  prefixb (List.rev (list_ascii_of_string s) ++ ["_"%char])
          (List.rev (list_ascii_of_string t)) = true.
Proof. intros ->. rewrite tail_key_split. apply prefixb_app. Qed.

Lemma account_unique_id_apart (e id : string) (c : Sensor.SensorClass) :
  Sensor.unique_id (Sensor.AccountEntity e)
  <> Sensor.unique_id (Sensor.TankEntity c e id).
Proof.
  cbn [Sensor.unique_id]. intros H.
  apply (f_equal list_ascii_of_string) in H.
  rewrite !(list_ascii_app e) in H. apply app_inv_head in H.
  apply list_ascii_inj in H. injection H as H.
  apply key_prefix in H. rewrite suffix_keys_not_count in H. discriminate.
Qed.

Lemma NoDup_map_on {A B} (f : A -> B) (l : list A) :
  NoDup l ->
  (forall x y, In x l -> In y l -> f x = f y -> x = y) ->
  NoDup (map f l).
Proof.
  induction 1 as [|a l Hnotin Hnd IH]; intros Hinj; [constructor|].
  cbn [map]. constructor.
  - intros Hin. apply in_map_iff in Hin as [x [Hfx Hx]].
    apply Hnotin. rewrite <- (Hinj x a); auto; [now right|now left].
  - apply IH. intros x y Hx Hy. apply Hinj; now right.
Qed.

Lemma in_tank_sensors e ids x :
  In x (flat_map (tank_sensors e) ids) ->
  exists c id, x = Sensor.TankEntity c e id /\ In id ids.
Proof.
  intros H. apply in_flat_map in H as [id [Hid Hx]].
  unfold tank_sensors in Hx. apply in_map_iff in Hx as [c [<- _]]. eauto.
Qed.

Lemma NoDup_tank_sensors e ids :
  NoDup ids -> NoDup (flat_map (tank_sensors e) ids).
Proof.
  induction 1 as [|id ids Hnotin Hnd IH]; [constructor|].
  cbn [flat_map]. apply NoDup_app.
  - unfold tank_sensors. apply NoDup_map_on.
    + unfold all_sensor_classes.
      repeat (constructor; [simpl; intuition discriminate|]). constructor.
    + intros x y _ _ H. now injection H.
  - exact IH.
  - intros x Hx Hx'. unfold tank_sensors in Hx.
    apply in_map_iff in Hx as [c [<- _]].
    apply in_tank_sensors in Hx' as [c' [id' [Heq Hin]]].
    injection Heq as _ <-. contradiction.
Qed.

(** X26: the entities that the sensor platform's setup hands to the host
    have pairwise different unique ids, whatever text the tank ids are. *)
Theorem X26_unique_ids_distinct
    (py_repr : pyval -> string) (entry : ConfigEntry.ConfigEntry)
    (snapshot : pyval) (p : Platform Sensor.SensorEntity) :
  Sensor.async_setup_entry py_repr entry snapshot = Ok p ->
  NoDup (map Sensor.unique_id (added p)).
Proof.
  intros H. apply sensor_setup_ok in H as [tanks [ids [_ [_ [Ha [Hnd _]]]]]].
  unfold added. rewrite Ha. cbn [List.concat]. rewrite app_nil_r.
  set (e := ConfigEntry.entry_id entry).
  apply NoDup_map_on.
  - constructor; [|now apply NoDup_tank_sensors].
    intros Hin. apply in_tank_sensors in Hin as [c [id [Heq _]]].
    discriminate.
  - intros x y [<-|Hx] [<-|Hy] Hxy; try reflexivity.
    + apply in_tank_sensors in Hy as [c [id [-> _]]].
      now apply account_unique_id_apart in Hxy.
    + apply in_tank_sensors in Hx as [c [id [-> _]]].
      symmetry in Hxy. now apply account_unique_id_apart in Hxy.
    + apply in_tank_sensors in Hx as [c [id [-> _]]].
      apply in_tank_sensors in Hy as [c' [id' [-> _]]].
      apply tank_unique_id_inj in Hxy as [-> ->]. reflexivity.
Qed.

Lemma X26_unique_ids_distinct_witness :
  NoDup (map Sensor.unique_id
           (Sensor.AccountEntity "entry0"
            :: tank_sensors "entry0" "1" ++ tank_sensors "entry0" "1_sensor")).
Proof.
  exact (X26_unique_ids_distinct repr_unused entry0
    (snapshot_with [tank_150; PDict [("tank_id", PStr "1_sensor")]])
    {| created_tank_ids := ["1_sensor"; "1"];
       add_calls := [Sensor.AccountEntity "entry0"
                     :: tank_sensors "entry0" "1"
                        ++ tank_sensors "entry0" "1_sensor"] |} eq_refl).
Defined.

(** *** The sensors of a tank *)

(** X27: for a tank that is found, the low-oil sensor has a state exactly
    when the gallons, the nominal capacity and the low-level threshold all
    have a value, and the state compares the gallons with capacity times
    the low-level fraction; when it has no state, one of the three sensors
    has no value. *)
Theorem X27_low_oil_and_its_readings
    (py_repr : pyval -> string) (self : SmartOilTankEntity) (d : dict) :
  _tank py_repr self = Ok (Some (PDict d)) ->
  py_truthy (PDict d) = true ->
  (forall b, BinarySensor.is_on py_repr self = Ok (Some b) ->
     exists g c l,
       Sensor.GallonsSensor.native_value py_repr self = Ok (Some g)
       /\ Sensor.NominalCapacitySensor.native_value py_repr self = Ok (Some c)
       /\ Sensor.LowLevelSensor.native_value py_repr self
          = Ok (Some (fmul l (float_of_Z 100)))
       /\ b = fleb g (fmul c l))
  /\ (BinarySensor.is_on py_repr self = Ok None ->
      Sensor.GallonsSensor.native_value py_repr self = Ok None
      \/ Sensor.NominalCapacitySensor.native_value py_repr self = Ok None
      \/ Sensor.LowLevelSensor.native_value py_repr self = Ok None).
Proof.
  intros Ht Htruthy.
  unfold BinarySensor.is_on, Sensor.GallonsSensor.native_value,
    Sensor.NominalCapacitySensor.native_value,
    Sensor.LowLevelSensor.native_value.
  rewrite Ht. cbn [rbind truthy_tank]. rewrite Htruthy.
  cbn [negb py_get rbind].
  destruct (_safe_float (dict_get d "sensor_gallons")) as [[g|]|eg];
    cbn [rbind];
    destruct (_safe_float (dict_get d "low_level")) as [[l|]|el];
    cbn [rbind];
    destruct (_safe_float (dict_get d "nominal")) as [[c|]|ec];
    cbn [rbind]; split; intros; try discriminate; auto.
  match goal with H : Ok (Some _) = Ok (Some _) |- _ => injection H as <- end.
  exists g, c, l. auto.
Qed.

Lemma X27_low_oil_and_its_readings_witness :
  exists g c l,
    Sensor.GallonsSensor.native_value repr_unused
      (entity_of (snapshot_of tank_150_low) "1") = Ok (Some g)
    /\ Sensor.NominalCapacitySensor.native_value repr_unused
         (entity_of (snapshot_of tank_150_low) "1") = Ok (Some c)
    /\ Sensor.LowLevelSensor.native_value repr_unused
         (entity_of (snapshot_of tank_150_low) "1")
       = Ok (Some (fmul l (float_of_Z 100)))
    /\ false = fleb g (fmul c l).
Proof.
  exact (proj1 (X27_low_oil_and_its_readings repr_unused
    (entity_of (snapshot_of tank_150_low) "1")
    [("tank_id", PInt 1); ("sensor_gallons", PStr "150.5");
     ("nominal", PStr "300"); ("low_level", PStr "0.25")]
    eq_refl eq_refl) false eq_refl).
Defined.

(** X28: the tank-id sensor of a tank that is found shows a value that
    prints as the id the entity was created with. *)
Theorem X28_tank_id_sensor
    (py_repr : pyval -> string) (self : SmartOilTankEntity) (t : pyval) :
  _tank py_repr self = Ok (Some t) ->
  py_truthy t = true ->
  exists v, Sensor.TankIdSensor.native_value py_repr self = Ok v
            /\ py_str py_repr v = _tank_id self.
Proof.
  intros Ht Htruthy.
  destruct (tank_found_shape _ _ _ Ht) as [d [-> Hid]].
  unfold Sensor.TankIdSensor.native_value. rewrite Ht.
  cbn [rbind truthy_tank]. rewrite Htruthy. cbn [py_get]. eauto.
Qed.

Lemma X28_tank_id_sensor_witness :
  exists v,
    Sensor.TankIdSensor.native_value repr_unused
      (entity_of (snapshot_of tank_150) "1") = Ok v
    /\ py_str repr_unused v = "1".
Proof.
  exact (X28_tank_id_sensor repr_unused (entity_of (snapshot_of tank_150) "1")
           tank_150 eq_refl eq_refl).
Defined.

(** X29: whenever the tank lookup returns, [device_info] returns a device
    whose identifier is made of the tank id alone and does not change with
    the snapshot, that hangs off the entry's account, and whose name is
    exactly the record's [tank_name] when the tank is found and that name is
    truthy, and [Tank <id>] in every other case (tank not found, no
    [tank_name], or a falsy one); the name is therefore never empty nor
    [None]. *)
Theorem X29_device_info
    (py_repr : pyval -> string) (entry : ConfigEntry.ConfigEntry)
    (self : SmartOilTankEntity) (found : option pyval) :
  _tank py_repr self = Ok found ->
  exists info,
    device_info py_repr entry self = Ok info
    /\ identifiers info = [(Const.DOMAIN, "tank_" ++ _tank_id self)]
    /\ via_device info = (Const.DOMAIN, ConfigEntry.entry_id entry)
    /\ py_truthy (name info) = true
    /\ name info =
       match found with
       | Some (PDict d) =>
           if py_truthy (dict_get d "tank_name")
           then dict_get d "tank_name"
           else PStr ("Tank " ++ _tank_id self)
       | _ => PStr ("Tank " ++ _tank_id self)
       end.
Proof.
  intros Ht. unfold device_info. rewrite Ht. cbn [rbind].
  assert (Hdefault : py_truthy (PStr ("Tank " ++ _tank_id self)) = true)
    by reflexivity.
  destruct found as [t|].
  - destruct (tank_found_shape _ _ _ Ht) as [d [-> _]].
    cbn [truthy_tank].
    destruct (py_truthy (PDict d)) eqn:Hd.
    + cbn [py_get rbind]. eexists.
      split; [reflexivity|]. cbn [identifiers via_device name].
      split; [reflexivity|]. split; [reflexivity|].
      unfold py_or.
      destruct (py_truthy (dict_get d "tank_name")) eqn:Hn; auto.
    + destruct d; [|discriminate].
      cbn. eexists. split; [reflexivity|]. cbn. auto.
  - cbn. eexists. split; [reflexivity|]. cbn. auto.
Qed.

Lemma X29_device_info_witness :
  exists info,
    device_info repr_unused entry0
      (entity_of (snapshot_of tank_basement) "7") = Ok info
    /\ identifiers info = [(Const.DOMAIN, "tank_7")]
    /\ via_device info = (Const.DOMAIN, "entry0")
    /\ py_truthy (name info) = true
    /\ name info = PStr "Basement".
Proof.
  exact (X29_device_info repr_unused entry0
           (entity_of (snapshot_of tank_basement) "7")
           (Some tank_basement) eq_refl).
Defined.

(** X30: a tank that is found, with no gallons left (or none readable) and
    a capacity above zero, is 0.0 percent full. *)
Theorem X30_empty_tank_percent
    (py_repr : pyval -> string) (self : SmartOilTankEntity) (d : dict)
    (g : option float) (c : float) :
  _tank py_repr self = Ok (Some (PDict d)) ->
  py_truthy (PDict d) = true ->
  _safe_float (dict_get d "sensor_gallons") = Ok g ->
  or_zero g = fzero ->
  _safe_float (dict_get d "nominal") = Ok (Some c) ->
  SFltb fzero c = true ->
  Sensor.native_value py_repr self = Ok (Some fzero).
Proof.
  intros Ht Htruthy Hg Hzero Hn Hpos.
  unfold Sensor.native_value. rewrite Ht. cbn [rbind truthy_tank].
  rewrite Htruthy. cbn [negb py_get rbind]. rewrite Hg, Hn. cbn [rbind].
  rewrite Hzero.
  destruct c as [[]|[]| |[] m e]; try discriminate; reflexivity.
Qed.

Lemma X30_empty_tank_percent_witness :
  Sensor.native_value repr_unused
    (entity_of (snapshot_of (PDict [("tank_id", PInt 1);
                                    ("sensor_gallons", PStr "0");
                                    ("nominal", PInt 275)])) "1")
  = Ok (Some fzero).
Proof.
  refine (X30_empty_tank_percent repr_unused
    (entity_of (snapshot_of (PDict [("tank_id", PInt 1);
                                    ("sensor_gallons", PStr "0");
                                    ("nominal", PInt 275)])) "1")
    [("tank_id", PInt 1); ("sensor_gallons", PStr "0"); ("nominal", PInt 275)]
    (Some fzero) (float_of_Z 275) eq_refl eq_refl eq_refl eq_refl eq_refl
    eq_refl).
Defined.
